(** * GeoFence: geometry normalisation and containment

    A shallow embedding of the geofence model ([backend/models/Geofence.js])
    and of the geofence router: the pre-save hook that derives the GeoJSON
    geometry, the containment methods [containsPoint], [calculateDistance]
    and [pointInPolygon], and the create, update and check-point handlers;
    then the lookup by identifier, the soft delete, the tags answer and the
    role and ownership middleware.

    JavaScript numbers are IEEE-754 binary64 values, modelled by Rocq's
    primitive floats; the transcendental functions of the engine's [Math]
    object are implementation-approximated and are taken as a parameter.
    A JavaScript string is held as the bytes of its UTF-8 encoding. *)

From Stdlib Require Import Floats.
From stdpp Require Import list strings.

(** ** JavaScript numbers *)

Module Js.

(** [a < b], [a > b], [a <= b] and [a >= b] on numbers: false as soon as
    one side is NaN. *)
Definition lt (a b : float) : bool := PrimFloat.ltb a b.
Definition gt (a b : float) : bool := PrimFloat.ltb b a.
Definition le (a b : float) : bool := PrimFloat.leb a b.
Definition ge (a b : float) : bool := PrimFloat.leb b a.

(** [a === b] and [a !== b] on numbers: NaN differs from itself, and the
    two zeros are equal. *)
Definition strict_eq (a b : float) : bool := PrimFloat.eqb a b.
Definition strict_ne (a b : float) : bool := negb (PrimFloat.eqb a b).

(** ToBoolean on a number: [0], [-0] and NaN are falsy. *)
Definition truthy (x : float) : bool :=
  negb (PrimFloat.eqb x 0 || PrimFloat.is_nan x).

(** ToBoolean on a property that may be absent ([undefined] or [null]). *)
Definition truthy_opt (o : option float) : bool :=
  match o with
  | Some x => truthy x
  | None => false
  end.

(** [Math.PI], the double nearest to pi. *)
Definition PI : float := 0x1.921fb54442d18p+1%float.

(** The part of the [Math] object whose results the language leaves to the
    implementation. *)
Record MathLib := {
  sin : float -> float;
  cos : float -> float;
  atan2 : float -> float -> float
}.

(** [Math.sqrt] is the IEEE square root. *)
Definition sqrt (x : float) : float := PrimFloat.sqrt x.

(** First-order approximations around zero; they stand for the engine's
    functions in closed examples. *)
Definition small_angle : MathLib :=
  {| sin := fun x => x;
     cos := fun x => (1 - x * x / 2)%float;
     atan2 := fun y x => (y / x)%float |}.

(** Exceptions a handler or a hook can complete with. *)
Inductive exn :=
| TypeError (message : string)
| ValidationError (path : string).

End Js.

(** Completions: a thrown exception or a value. *)
Abbreviation completion := (sum Js.exn).

#[export] Instance completion_ret : MRet completion := fun _ x => inr x.
#[export] Instance completion_bind : MBind completion :=
  fun _ _ f m => match m with inl e => inl e | inr x => f x end.

(** ** The data model *)

Record LatLng := { lat : float; lng : float }.

(** [geometry.coordinates] is of mixed type: the default [[]], a position
    [[lng, lat]], the pair [[undefined, undefined]] read off a centre that
    was never given, or a list of rings of positions. *)
Inductive GeoCoordinates :=
| NoCoordinates
| Position (p : float * float)
| UndefinedPosition
| Rings (rings : list (list (float * float))).

Record Geometry := {
  geoType : string;
  geoCoordinates : GeoCoordinates
}.

(** The schema's defaults for [geometry]. *)
Definition default_geometry : Geometry :=
  {| geoType := "Point"; geoCoordinates := NoCoordinates |}.

(** A geofence document. The presentation attributes (colours, opacity,
    stroke weight, tags) play no part in geometry or containment and are
    left out. [center] is a nested path of the schema: [this.center] is an
    object on every document, and [None] stands for the one whose [lat] and
    [lng] are both [undefined]. *)
Record Geofence := {
  _id : string;
  name : string;
  coordinates : list LatLng;
  geometry : Geometry;
  type : string;
  center : option LatLng;
  radius : option float;
  isActive : bool;
  createdBy : string
}.

(** [xs[i]] followed by a property read: reading a property of [undefined]
    throws. *)
Definition at_index {A} (xs : list A) (i : nat) : completion A :=
  match xs !! i with
  | Some x => inr x
  | None => inl (Js.TypeError "Cannot read properties of undefined")
  end.

(** ** The containment evaluator *)

(** The condition of [pointInPolygon]'s loop body, at the vertex [ci] and its
    predecessor [cj]. *)
Definition edge_test (plat plng : float) (ci cj : LatLng) : bool :=
  xorb (Js.gt ci.(lat) plat) (Js.gt cj.(lat) plat)
  && Js.lt plng
       ((cj.(lng) - ci.(lng)) * (plat - ci.(lat)) / (cj.(lat) - ci.(lat))
        + ci.(lng))%float.

(** The loop [for (i = 0, j = length - 1; i < length; j = i++)]. [n] is
    [length - i], the number of iterations the guard still admits. *)
Fixpoint pointInPolygon_loop (coordinates : list LatLng) (plat plng : float)
    (n i j : nat) (inside : bool) : completion bool :=
  match n with
  | O => mret inside
  | S n' =>
      ci ← at_index coordinates i;
      cj ← at_index coordinates j;
      let inside' := if edge_test plat plng ci cj then negb inside else inside in
      pointInPolygon_loop coordinates plat plng n' (S i) i inside'
  end.

Definition pointInPolygon (plat plng : float) (coordinates : list LatLng)
    : completion bool :=
  pointInPolygon_loop coordinates plat plng
    (length coordinates) 0 (length coordinates - 1) false.

Section Evaluator.

Context (Math : Js.MathLib).

Definition calculateDistance (lat1 lng1 lat2 lng2 : float) : float :=
  let R := 6371000%float in
  let dLat := ((lat2 - lat1) * Js.PI / 180)%float in
  let dLng := ((lng2 - lng1) * Js.PI / 180)%float in
  let a :=
    (Js.sin Math (dLat / 2) * Js.sin Math (dLat / 2)
     + Js.cos Math (lat1 * Js.PI / 180) * Js.cos Math (lat2 * Js.PI / 180)
       * Js.sin Math (dLng / 2) * Js.sin Math (dLng / 2))%float in
  let c := (2 * Js.atan2 Math (Js.sqrt a) (Js.sqrt (1 - a)))%float in
  (R * c)%float.

(** The guard [this.type === 'circle' && this.center && this.radius]: the
    centre and the radius when it holds. On a circle whose centre was never
    given [this.center] is still an object; the distance to its undefined
    coordinates is NaN and [NaN <= this.radius] is [false], the answer the
    document gets here by falling through. *)
Definition circle_guard (this : Geofence) : option (LatLng * float) :=
  if String.eqb this.(type) "circle" then
    match this.(center), this.(radius) with
    | Some c, Some r => if Js.truthy r then Some (c, r) else None
    | _, _ => None
    end
  else None.

Definition containsPoint (this : Geofence) (plat plng : float)
    : completion bool :=
  match circle_guard this with
  | Some (c, r) =>
      let distance := calculateDistance plat plng c.(lat) c.(lng) in
      mret (Js.le distance r)
  | None =>
      if String.eqb this.(type) "polygon"
         && (3 <=? length this.(coordinates))
      then pointInPolygon plat plng this.(coordinates)
      else mret false
  end.

End Evaluator.

(** [Array.prototype.filter]: the callback is applied to the elements in
    order and those it accepts are pushed onto the result. The first
    component lists the elements the callback was applied to. *)
Fixpoint filter_from {A} (callback : A -> completion bool)
    (xs kept : list A) : list A * completion (list A) :=
  match xs with
  | [] => ([], mret kept)
  | x :: xs' =>
      match callback x with
      | inl e => ([x], inl e)
      | inr b =>
          let '(calls, r) :=
            filter_from callback xs' (if b then kept ++ [x] else kept) in
          (x :: calls, r)
      end
  end.

Definition js_filter {A} (callback : A -> completion bool) (xs : list A)
    : list A * completion (list A) :=
  filter_from callback xs [].

(** [geofences.filter(geofence => geofence.containsPoint(lat, lng))], the
    step of the check-point handler that selects the containing geofences. *)
Definition findContaining (Math : Js.MathLib) (geofences : list Geofence)
    (plat plng : float) : completion (list Geofence) :=
  (js_filter (fun geofence => containsPoint Math geofence plat plng)
     geofences).2.

(** ** The geometry normaliser *)

Definition set_geometry (g : Geometry) (this : Geofence) : Geofence :=
  {| _id := this.(_id); name := this.(name);
     coordinates := this.(coordinates); geometry := g;
     type := this.(type); center := this.(center); radius := this.(radius);
     isActive := this.(isActive); createdBy := this.(createdBy) |}.

(** [coord => [coord.lng, coord.lat]] *)
Definition toGeo (coord : LatLng) : float * float :=
  (coord.(lng), coord.(lat)).

(** [p[0] !== q[0] || p[1] !== q[1]] *)
Definition positions_differ (p q : float * float) : bool :=
  Js.strict_ne p.1 q.1 || Js.strict_ne p.2 q.2.

(** The closing step shared by the polygon and the rectangle branch: the
    first position is pushed when it differs from the last one. *)
Definition closeRing (geoCoords : list (float * float))
    : completion (list (float * float)) :=
  first ← at_index geoCoords 0;
  final ← at_index geoCoords (length geoCoords - 1);
  if positions_differ first final
  then mret (geoCoords ++ [first])
  else mret geoCoords.

(** [this.coordinates.map(...)] followed by the closing step. *)
Definition ringOf (coordinates : list LatLng)
    : completion (list (float * float)) :=
  closeRing (toGeo <$> coordinates).

(** The pre-save hook. [isModified] answers [this.isModified(path)]; the
    hook completes with [next()], that is with the document and no error.
    [this.center] is truthy on every document (a nested path), so the first
    branch is taken by every circle, and reads [undefined] twice when no
    centre was given. *)
Definition preSave (isModified : string -> bool) (this : Geofence)
    : completion Geofence :=
  if isModified "coordinates" || isModified "type"
     || isModified "center" || isModified "radius"
  then
    if String.eqb this.(type) "circle" then
      mret (set_geometry
              {| geoType := "Point";
                 geoCoordinates :=
                   match this.(center) with
                   | Some c => Position (c.(lng), c.(lat))
                   | None => UndefinedPosition
                   end |} this)
    else if String.eqb this.(type) "polygon"
            && (3 <=? length this.(coordinates))
    then
      geoCoords ← ringOf this.(coordinates);
      mret (set_geometry
              {| geoType := "Polygon";
                 geoCoordinates := Rings [geoCoords] |} this)
    else if String.eqb this.(type) "rectangle"
            && (2 <=? length this.(coordinates))
    then
      geoCoords ← ringOf this.(coordinates);
      mret (set_geometry
              {| geoType := "Polygon";
                 geoCoordinates := Rings [geoCoords] |} this)
    else mret this
  else mret this.

(** ** Schema validation *)

(** The [min] and [max] validators of a number path. *)
Definition in_range (lo hi v : float) : bool := Js.ge v lo && Js.le v hi.

Definition valid_LatLng (c : LatLng) : bool :=
  in_range (-90) 90 c.(lat) && in_range (-180) 180 c.(lng).

(** The white space and line terminators that [String.prototype.trim]
    strips, by the bytes of their UTF-8 encoding: U+0009 to U+000D and
    U+0020; U+00A0; U+1680, U+2000 to U+200A, U+2028, U+2029, U+202F,
    U+205F, U+3000 and U+FEFF. *)
Definition space1 (a : nat) : bool :=
  (a =? 32) || ((9 <=? a) && (a <=? 13)).

Definition space2 (a b : nat) : bool :=
  (a =? 194) && (b =? 160).

Definition space3 (a b c : nat) : bool :=
  ((a =? 225) && (b =? 154) && (c =? 128))
  || ((a =? 226) && (b =? 128)
      && (((128 <=? c) && (c <=? 138)) || (c =? 168) || (c =? 169)
          || (c =? 175)))
  || ((a =? 226) && (b =? 129) && (c =? 159))
  || ((a =? 227) && (b =? 128) && (c =? 128))
  || ((a =? 239) && (b =? 187) && (c =? 191)).

(** Dropping the white space a string starts with. With [backwards] the
    string is read from its end, each character's bytes last to first. *)
Fixpoint strip (backwards : bool) (s : string) : string :=
  match s with
  | String x s1 =>
      let a := Ascii.nat_of_ascii x in
      if space1 a then strip backwards s1
      else
        match s1 with
        | String y s2 =>
            let b := Ascii.nat_of_ascii y in
            if (if backwards then space2 b a else space2 a b)
            then strip backwards s2
            else
              match s2 with
              | String z s3 =>
                  let c := Ascii.nat_of_ascii z in
                  if (if backwards then space3 c b a else space3 a b c)
                  then strip backwards s3
                  else s
              | EmptyString => s
              end
        | EmptyString => s
        end
  | EmptyString => EmptyString
  end.

(** [s.trim()], also the [trim] setter of a string path. *)
Definition trim (s : string) : string :=
  String.rev (strip true (String.rev (strip false s))).

(** [s.length], the number of UTF-16 code units: one for a character of
    one to three bytes, two for a character of four; the continuation
    bytes (128 to 191) count for nothing. *)
Fixpoint js_length (s : string) : nat :=
  match s with
  | String x s' =>
      let a := Ascii.nat_of_ascii x in
      (if (128 <=? a) && (a <=? 191) then 0
       else if 240 <=? a then 2 else 1) + js_length s'
  | EmptyString => 0
  end.

Definition check (path : string) (ok : bool) : completion unit :=
  if ok then mret tt else inl (Js.ValidationError path).

(** The validators the schema declares on the modelled paths, run by
    [save] before the pre-save hook. *)
Definition validate (this : Geofence) : completion unit :=
  _ ← check "name" (negb (String.eqb this.(name) "")
                    && (js_length this.(name) <=? 100));
  _ ← check "coordinates" (forallb valid_LatLng this.(coordinates));
  _ ← check "type"
        (bool_decide (this.(type) ∈ ["polygon"; "circle"; "rectangle"]));
  _ ← check "center"
        (match this.(center) with Some c => valid_LatLng c | None => true end);
  check "radius"
    (match this.(radius) with Some r => Js.ge r 0 | None => true end).

Definition save (isModified : string -> bool) (this : Geofence)
    : completion Geofence :=
  _ ← validate this;
  preSave isModified this.

(** ** Routes *)

Inductive Payload :=
| Failure (message : string)
| ServerError (message : string) (error : Js.exn)
| Saved (message : string) (data : Geofence)
| PointCheck (point : float * float) (isInside : bool)
    (geofences : list Geofence) (count : nat).

Record Response := { status : nat; payload : Payload }.

Module Body.
(** The shape fields of a create or update request; [None] is
    [undefined]. *)
Record t := {
  name : option string;
  coordinates : option (list LatLng);
  type : option string;
  center : option LatLng;
  radius : option float;
  isActive : option bool
}.
End Body.

(** [x || d] on an optional string. *)
Definition or_default (x : option string) (d : string) : string :=
  match x with
  | Some s => if String.eqb s "" then d else s
  | None => d
  end.

(** The collection: the documents in insertion order. *)
Definition Store := list Geofence.

Definition owned_by (user id : string) (g : Geofence) : bool :=
  String.eqb g.(_id) id && String.eqb g.(createdBy) user.

(** [Geofence.findOne({ _id, createdBy })] *)
Definition findOne (store : Store) (user id : string) : option Geofence :=
  List.find (owned_by user id) store.

(** Writing a saved document back in place of its previous version. *)
Definition replace (doc : Geofence) (store : Store) : Store :=
  (fun g => if String.eqb g.(_id) doc.(_id) then doc else g) <$> store.

(** The paths a request assigns; [this.isModified(path)] holds for them. *)
Definition assigned (body : Body.t) (path : string) : bool :=
  (String.eqb path "name" && bool_decide (is_Some body.(Body.name)))
  || (String.eqb path "coordinates"
      && bool_decide (is_Some body.(Body.coordinates)))
  || (String.eqb path "type" && bool_decide (is_Some body.(Body.type)))
  || (String.eqb path "center" && bool_decide (is_Some body.(Body.center)))
  || (String.eqb path "radius" && bool_decide (is_Some body.(Body.radius)))
  || (String.eqb path "isActive"
      && bool_decide (is_Some body.(Body.isActive))).

(** ToBoolean on an optional string: [undefined] and [''] are falsy. *)
Definition truthy_string (x : option string) : bool :=
  match x with
  | Some s => negb (String.eqb s "")
  | None => false
  end.

Definition bad_request (message : string) : Response :=
  {| status := 400; payload := Failure message |}.

(** The request validation of [router.post('/')]: the message of the 400
    response, if any. *)
Definition create_rejects (body : Body.t) : option string :=
  match body.(Body.name), body.(Body.coordinates) with
  | Some name, Some coordinates =>
      if String.eqb name "" || (length coordinates =? 0)
      then Some "Name and coordinates are required"
      else if bool_decide (body.(Body.type) = Some "polygon")
              && (length coordinates <? 3)
      then Some "Polygon must have at least 3 coordinates"
      else if bool_decide (body.(Body.type) = Some "circle")
              && (negb (bool_decide (is_Some body.(Body.center)))
                  || negb (Js.truthy_opt body.(Body.radius)))
      then Some "Circle type requires center and radius"
      else None
  | _, _ => Some "Name and coordinates are required"
  end.

(** [router.post('/')]; [fresh] is the identifier the store assigns. A new
    document has every path it was constructed with marked as modified,
    among them [type]. *)
Definition create (store : Store) (user fresh : string) (body : Body.t)
    : Response * Store :=
  match create_rejects body with
  | Some message => (bad_request message, store)
  | None =>
      let geofence :=
        {| _id := fresh;
           name := trim (default "" body.(Body.name));
           coordinates := default [] body.(Body.coordinates);
           geometry := default_geometry;
           type := or_default body.(Body.type) "polygon";
           center := body.(Body.center);
           radius := body.(Body.radius);
           isActive := true;
           createdBy := user |} in
      match save (fun path => String.eqb path "type" || assigned body path)
              geofence with
      | inr saved =>
          ({| status := 201;
              payload := Saved "Geofence created successfully" saved |},
           store ++ [saved])
      | inl e =>
          ({| status := 500;
              payload := ServerError "Error creating geofence" e |}, store)
      end
  end.

(** The assignments [if (field !== undefined) geofence.field = field]. *)
Definition assign (body : Body.t) (this : Geofence) : Geofence :=
  {| _id := this.(_id);
     name := match body.(Body.name) with
             | Some n => trim n
             | None => this.(name)
             end;
     coordinates := default this.(coordinates) body.(Body.coordinates);
     geometry := this.(geometry);
     type := default this.(type) body.(Body.type);
     center := match body.(Body.center) with
               | Some c => Some c
               | None => this.(center)
               end;
     radius := match body.(Body.radius) with
               | Some r => Some r
               | None => this.(radius)
               end;
     isActive := default this.(isActive) body.(Body.isActive);
     createdBy := this.(createdBy) |}.

(** [router.put('/:id')] *)
Definition update (store : Store) (user id : string) (body : Body.t)
    : Response * Store :=
  match findOne store user id with
  | None =>
      ({| status := 404; payload := Failure "Geofence not found" |}, store)
  | Some geofence =>
      match save (assigned body) (assign body geofence) with
      | inr saved =>
          ({| status := 200;
              payload := Saved "Geofence updated successfully" saved |},
           replace saved store)
      | inl e =>
          ({| status := 500;
              payload := ServerError "Error updating geofence" e |}, store)
      end
  end.

Module Point.
(** The body of a check-point request. *)
Record t := { lat : option float; lng : option float }.
End Point.

(** [Geofence.find({ createdBy, isActive: true })] *)
Definition find_active (store : Store) (user : string) : list Geofence :=
  List.filter (fun g => String.eqb g.(createdBy) user && g.(isActive)) store.

(** [router.post('/check-point')]. The second component lists the
    geofences [containsPoint] was called on. *)
Definition checkPoint (Math : Js.MathLib) (store : Store) (user : string)
    (body : Point.t) : Response * list Geofence :=
  match body.(Point.lat), body.(Point.lng) with
  | Some plat, Some plng =>
      if negb (Js.truthy plat) || negb (Js.truthy plng)
      then (bad_request "Latitude and longitude are required", [])
      else
        let geofences := find_active store user in
        let '(calls, r) :=
          js_filter (fun geofence => containsPoint Math geofence plat plng)
            geofences in
        match r with
        | inr containingGeofences =>
            ({| status := 200;
                payload :=
                  PointCheck (plat, plng) (0 <? length containingGeofences)
                    containingGeofences (length containingGeofences) |},
             calls)
        | inl e =>
            ({| status := 500;
                payload := ServerError "Error checking point" e |}, calls)
        end
  | _, _ => (bad_request "Latitude and longitude are required", [])
  end.

(** ** The specification's wording of the algorithms *)

(** Each vertex paired with its predecessor, [prev] being the predecessor of
    the first one. *)
Fixpoint edges_from (prev : LatLng) (vertices : list LatLng)
    : list (LatLng * LatLng) :=
  match vertices with
  | [] => []
  | v :: rest => (v, prev) :: edges_from v rest
  end.

(** The edges of a ring: index 0 wraps to the last index. *)
Definition edges (vertices : list LatLng) : list (LatLng * LatLng) :=
  match last vertices with
  | Some final => edges_from final vertices
  | None => []
  end.

Definition exactly_one (a b : bool) : bool :=
  (a && negb b) || (negb a && b).

(** The longitude at which the line through the edge meets the query
    latitude. *)
Definition x_intersection (plat : float) (vi vj : LatLng) : float :=
  ((vj.(lng) - vi.(lng)) * (plat - vi.(lat)) / (vj.(lat) - vi.(lat))
   + vi.(lng))%float.

(** An edge crosses the ray when exactly one endpoint lies strictly above
    the query latitude and the intersection lies strictly beyond the query
    longitude. *)
Definition crossing (plat plng : float) (e : LatLng * LatLng) : bool :=
  exactly_one (Js.gt e.1.(lat) plat) (Js.gt e.2.(lat) plat)
  && Js.gt (x_intersection plat e.1 e.2) plng.

(** Even-odd rule: every crossing toggles the flag, which starts false. *)
Definition toggle (plat plng : float) (inside : bool) (e : LatLng * LatLng)
    : bool :=
  if crossing plat plng e then negb inside else inside.

Definition even_odd (plat plng : float) (vertices : list LatLng) : bool :=
  fold_left (toggle plat plng) (edges vertices) false.

(** [g] contains the point: [containsPoint] completes with [true]. *)
Definition contains (Math : Js.MathLib) (plat plng : float) (g : Geofence)
    : Prop :=
  containsPoint Math g plat plng = inr true.

(** A polygon of fewer than three vertices, a rectangle of fewer than
    two. *)
Definition too_few_vertices (this : Geofence) : bool :=
  (String.eqb this.(type) "polygon" && (length this.(coordinates) <? 3))
  || (String.eqb this.(type) "rectangle" && (length this.(coordinates) <? 2)).

(** Structurally insufficient shape fields, by declared kind. *)
Definition insufficient (this : Geofence) : bool :=
  (String.eqb this.(type) "circle" && negb (bool_decide (is_Some this.(center))))
  || (String.eqb this.(type) "polygon" && (length this.(coordinates) <? 3))
  || (String.eqb this.(type) "rectangle" && (length this.(coordinates) <? 2)).

(** The value of a completed call, [false] standing for a throw. *)
Definition accepted (r : completion bool) : bool :=
  match r with
  | inr b => b
  | inl _ => false
  end.

(** A coordinate of a request that is [0] or missing. *)
Definition zero_or_absent (o : option float) : Prop :=
  match o with
  | Some x => Js.strict_eq x 0 = true
  | None => True
  end.

(** A position read back as a vertex. *)
Definition fromGeo (p : float * float) : LatLng :=
  {| lat := p.2; lng := p.1 |}.

(** ** The rest of the model and of the router *)

(** The virtual [formattedCoordinates]. *)
Definition formattedCoordinates (this : Geofence) : list (float * float) :=
  (fun coord => (coord.(lng), coord.(lat))) <$> this.(coordinates).

Definition set_isActive (b : bool) (this : Geofence) : Geofence :=
  {| _id := this.(_id); name := this.(name);
     coordinates := this.(coordinates); geometry := this.(geometry);
     type := this.(type); center := this.(center); radius := this.(radius);
     isActive := b; createdBy := this.(createdBy) |}.

(** The bodies the read and delete handlers answer with. *)
Inductive Answer :=
| Data (data : Geofence)
| Message (success : bool) (message : string)
| Error (message : string) (error : Js.exn).

(** [router.get('/:id')]: the lookup does not consult [isActive]. *)
Definition getById (store : Store) (user id : string) : nat * Answer :=
  match findOne store user id with
  | None => (404, Message false "Geofence not found")
  | Some geofence => (200, Data geofence)
  end.

(** [router.delete('/:id')]: the document is kept and flagged inactive;
    the only path the handler assigns is [isActive]. *)
Definition remove (store : Store) (user id : string)
    : nat * Answer * Store :=
  match findOne store user id with
  | None => (404, Message false "Geofence not found", store)
  | Some geofence =>
      match save (fun path => String.eqb path "isActive")
              (set_isActive false geofence) with
      | inr saved =>
          (200, Message true "Geofence deleted successfully",
           replace saved store)
      | inl e => (500, Error "Error deleting geofence" e, store)
      end
  end.

(** [tag && tag.trim() !== ''] *)
Definition nonblank (tag : string) : bool :=
  negb (String.eqb tag "") && negb (String.eqb (trim tag) "").

(** [router.get('/tags')], from the result of the store's [distinct]
    query: the data and the count of the answer. *)
Definition tagsAnswer (tags : list string) : list string * nat :=
  (List.filter nonblank tags, length tags).

(** The store holds documents that passed validation, under distinct
    identifiers. *)
Definition valid (g : Geofence) : Prop := validate g = inr tt.

Definition consistent (store : Store) : Prop :=
  Forall valid store /\ NoDup (_id <$> store).

(** ** Authorisation middleware *)

Module Auth.

Record User := { _id : string; role : string }.

Definition isAdmin (this : User) : bool := String.eqb this.(role) "admin".
Definition isClient (this : User) : bool := String.eqb this.(role) "client".

(** A middleware either calls [next()] or answers with a status, a message
    and a code. *)
Inductive Outcome :=
| Next
| Denied (status : nat) (message code : string).

Definition unauthenticated : Outcome :=
  Denied 401 "Authentication required" "UNAUTHORIZED".

Definition requireAdmin (user : option User) : Outcome :=
  match user with
  | None => unauthenticated
  | Some u =>
      if negb (isAdmin u)
      then Denied 403 "Admin access required" "FORBIDDEN"
      else Next
  end.

Definition requireClient (user : option User) : Outcome :=
  match user with
  | None => unauthenticated
  | Some u =>
      if negb (isClient u) && negb (isAdmin u)
      then Denied 403 "Client access required" "FORBIDDEN"
      else Next
  end.

(** [xs.join(sep)] *)
Fixpoint join (sep : string) (xs : list string) : string :=
  match xs with
  | [] => ""
  | x :: rest =>
      match rest with
      | [] => x
      | _ => String.append x (String.append sep (join sep rest))
      end
  end.

(** The argument of [requireRole]: one role or an array of roles. *)
Inductive Roles :=
| One (r : string)
| Many (rs : list string).

Definition requireRole (roles : Roles) (user : option User) : Outcome :=
  match user with
  | None => unauthenticated
  | Some u =>
      let allowedRoles :=
        match roles with Many rs => rs | One r => [r] end in
      if negb (bool_decide (u.(role) ∈ allowedRoles))
      then Denied 403
             (String.append "Access denied. Required roles: "
                (join ", " allowedRoles)) "FORBIDDEN"
      else Next
  end.

Record Params := { userId : option string; id : option string }.

(** [req.params.userId || req.params.id] *)
Definition target (params : Params) : option string :=
  match params.(userId) with
  | Some s => if String.eqb s "" then params.(id) else Some s
  | None => params.(id)
  end.

Definition requireOwnershipOrAdmin (params : Params) (user : option User)
    : Outcome :=
  match user with
  | None => unauthenticated
  | Some u =>
      let isOwner := bool_decide (Some u.(_id) = target params) in
      if negb isOwner && negb (isAdmin u)
      then Denied 403
             "Access denied. You can only access your own resources."
             "FORBIDDEN"
      else Next
  end.

End Auth.

(** ** Sample documents *)

Definition sample (kind : string) (vertices : list LatLng)
    (c : option LatLng) (r : option float) : Geofence :=
  {| _id := "g1"; name := "Depot"; coordinates := vertices;
     geometry := default_geometry; type := kind; center := c; radius := r;
     isActive := true; createdBy := "u1" |}.

(** The corners the drawing tool sends for a rectangle: north-east,
    north-west, south-west, south-east. *)
Definition rect4 : list LatLng :=
  [ {| lat := 10; lng := 10 |}; {| lat := 10; lng := 0 |};
    {| lat := 0; lng := 0 |}; {| lat := 0; lng := 10 |} ].

Definition square4 : list LatLng :=
  [ {| lat := 0; lng := 0 |}; {| lat := 0; lng := 10 |};
    {| lat := 10; lng := 10 |}; {| lat := 10; lng := 0 |} ].

Definition segment2 : list LatLng :=
  [ {| lat := 0; lng := 0 |}; {| lat := 0; lng := 10 |} ].

Definition origin : LatLng := {| lat := 0; lng := 0 |}.

Definition circle_store : Store :=
  [sample "circle" [origin] (Some origin) (Some 1000%float)].

Definition zero_radius : Body.t :=
  {| Body.name := None; Body.coordinates := None; Body.type := None;
     Body.center := None; Body.radius := Some 0%float;
     Body.isActive := None |}.

Definition zero_circle : Body.t :=
  {| Body.name := Some "Depot"; Body.coordinates := Some [origin];
     Body.type := Some "circle"; Body.center := Some origin;
     Body.radius := Some 0%float; Body.isActive := None |}.

Definition far4 : list LatLng :=
  [ {| lat := 40; lng := 40 |}; {| lat := 40; lng := 50 |};
    {| lat := 50; lng := 50 |}; {| lat := 50; lng := 40 |} ].

(** Three geofences of which only the second contains the point (5, 5). *)
Definition three_geofences : list Geofence :=
  [ sample "polygon" far4 None None;
    sample "polygon" square4 None None;
    sample "polygon" segment2 None None ].

Definition other_geofence : Geofence :=
  {| _id := "g2"; name := "Yard"; coordinates := square4;
     geometry := default_geometry; type := "polygon"; center := None;
     radius := None; isActive := true; createdBy := "u2" |}.

(** A polygon of one user and a polygon of another. *)
Definition two_owners : Store :=
  [sample "polygon" square4 None None; other_geofence].

Definition rename : Body.t :=
  {| Body.name := Some "Gate"; Body.coordinates := None; Body.type := None;
     Body.center := None; Body.radius := None; Body.isActive := None |}.

Definition untyped_segment : Body.t :=
  {| Body.name := Some "Gate"; Body.coordinates := Some segment2;
     Body.type := None; Body.center := None; Body.radius := None;
     Body.isActive := None |}.

Definition blank_name : Body.t :=
  {| Body.name := Some "  "; Body.coordinates := Some [origin];
     Body.type := Some "rectangle"; Body.center := None;
     Body.radius := None; Body.isActive := None |}.

Definition closed_square : Geofence :=
  set_geometry
    {| geoType := "Polygon";
       geoCoordinates :=
         Rings [[(0, 0); (10, 0); (10, 10); (0, 10); (0, 0)]%float] |}
    (sample "polygon" square4 None None).

(** ** Facts about numbers *)

Section Numbers.

(** A number that compares with anything is not NaN, hence equal to
    itself. *)
Lemma SFcompare_refl f c g :
  SFcompare f g = Some c -> SFcompare f f = Some Eq.
Proof.
  destruct f as [s | s | | s m e]; try (destruct g; discriminate);
    intros _; simpl; try reflexivity.
  - by destruct s.
  - rewrite Z.compare_refl, Pos.compare_cont_refl. by destruct s.
Qed.

Lemma SFcompare_refl_r f c g :
  SFcompare g f = Some c -> SFcompare f f = Some Eq.
Proof.
  destruct f as [s | s | | s m e]; try (destruct g; discriminate);
    intros _; simpl; try reflexivity.
  - by destruct s.
  - rewrite Z.compare_refl, Pos.compare_cont_refl. by destruct s.
Qed.

Lemma le_self_eq a b : Js.le a b = true -> Js.strict_eq b b = true.
Proof.
  unfold Js.le, Js.strict_eq.
  rewrite FloatAxioms.leb_spec, FloatAxioms.eqb_spec.
  unfold SFleb, SFeqb.
  destruct (SFcompare (Prim2SF a) (Prim2SF b)) as [c|] eqn:E; [|done].
  intros _. by rewrite (SFcompare_refl_r _ _ _ E).
Qed.

Lemma strict_eq_le a b : Js.strict_eq a b = true -> Js.le a b = true.
Proof.
  unfold Js.le, Js.strict_eq.
  rewrite FloatAxioms.leb_spec, FloatAxioms.eqb_spec.
  unfold SFleb, SFeqb.
  by destruct (SFcompare (Prim2SF a) (Prim2SF b)) as [[]|].
Qed.

Lemma in_range_self_eq lo hi v :
  in_range lo hi v = true -> Js.strict_eq v v = true.
Proof.
  unfold in_range, Js.ge. intros [H _]%andb_true_iff.
  exact (le_self_eq _ _ H).
Qed.


Lemma valid_LatLng_same c :
  valid_LatLng c = true -> positions_differ (toGeo c) (toGeo c) = false.
Proof.
  unfold valid_LatLng, positions_differ, toGeo, Js.strict_ne. simpl.
  intros [Hlat Hlng]%andb_true_iff.
  apply in_range_self_eq in Hlat, Hlng.
  unfold Js.strict_eq in *. by rewrite Hlat, Hlng.
Qed.

End Numbers.

(** ** The ray-casting loop and the even-odd rule *)

Section RayCasting.

Context (plat plng : float).

Lemma exactly_one_xorb a b : exactly_one a b = xorb a b.
Proof. by destruct a, b. Qed.

Lemma edge_test_crossing ci cj :
  edge_test plat plng ci cj = crossing plat plng (ci, cj).
Proof.
  unfold edge_test, crossing, x_intersection. simpl.
  by rewrite exactly_one_xorb.
Qed.

Lemma crossing_degenerate v : crossing plat plng (v, v) = false.
Proof.
  unfold crossing. simpl. rewrite exactly_one_xorb.
  by destruct (Js.gt (lat v) plat).
Qed.

Lemma toggle_xorb inside e :
  toggle plat plng inside e = xorb inside (crossing plat plng e).
Proof. unfold toggle. by destruct (crossing plat plng e), inside. Qed.

Lemma fold_toggle_xorb es inside :
  fold_left (toggle plat plng) es inside
  = xorb inside (fold_left (toggle plat plng) es false).
Proof.
  revert inside. induction es as [|e es IH]; intros inside; simpl.
  - by destruct inside.
  - rewrite IH, (IH (toggle plat plng false e)), !toggle_xorb.
    by destruct inside, (crossing plat plng e),
      (fold_left (toggle plat plng) es false).
Qed.

Lemma edges_from_snoc prev vs v :
  edges_from prev (vs ++ [v])
  = edges_from prev vs ++ [(v, default prev (last vs))].
Proof.
  revert prev. induction vs as [|w vs IH]; intros prev; [done|].
  rewrite last_cons. simpl. rewrite IH. by destruct (last vs).
Qed.

(** The loop invariant: with [i] vertices consumed and [j] the index of
    the predecessor, the remaining iterations fold the remaining edges. *)
Lemma pointInPolygon_loop_edges coordinates rest :
  forall i j prev inside,
    drop i coordinates = rest ->
    coordinates !! j = Some prev ->
    pointInPolygon_loop coordinates plat plng (length rest) i j inside
    = inr (fold_left (toggle plat plng) (edges_from prev rest) inside).
Proof.
  induction rest as [|v rest IH]; intros i j prev inside Hdrop Hj;
    simpl; [done|].
  assert (Hi : coordinates !! i = Some v).
  { rewrite <- (Nat.add_0_r i), <- lookup_drop, Hdrop. done. }
  unfold at_index. rewrite Hi, Hj. simpl.
  rewrite edge_test_crossing.
  apply IH; [|done].
  rewrite (drop_S _ _ _ Hi) in Hdrop. congruence.
Qed.

Lemma pointInPolygon_even_odd coordinates :
  pointInPolygon plat plng coordinates
  = inr (even_odd plat plng coordinates).
Proof.
  unfold pointInPolygon, even_odd, edges.
  destruct (last coordinates) as [final|] eqn:Hlast.
  - apply pointInPolygon_loop_edges; [done|].
    by rewrite Nat.sub_1_r, <- last_lookup.
  - apply last_None in Hlast. by subst.
Qed.

Lemma even_odd_closed v rest :
  even_odd plat plng ((v :: rest) ++ [v]) = even_odd plat plng (v :: rest).
Proof.
  unfold even_odd, edges.
  rewrite last_snoc. simpl app. simpl edges_from.
  rewrite edges_from_snoc. simpl fold_left.
  rewrite fold_left_app. simpl fold_left.
  rewrite (toggle_xorb false (v, v)), crossing_degenerate. simpl xorb.
  destruct (last (v :: rest)) as [final|] eqn:Hlast.
  2: { by apply last_None in Hlast. }
  assert (default v (last rest) = final) as ->.
  { rewrite last_cons in Hlast. destruct (last rest); simpl; congruence. }
  simpl. rewrite (fold_toggle_xorb _ (toggle _ _ _ _)), !toggle_xorb.
  by destruct (crossing plat plng (v, final)),
    (fold_left (toggle plat plng) (edges_from v rest) false).
Qed.

End RayCasting.

(** ** The containment evaluator *)

Section Containment.

Context (Math : Js.MathLib).

Lemma circle_guard_other this :
  this.(type) ≠ "circle" -> circle_guard this = None.
Proof.
  intros H. unfold circle_guard.
  by destruct (String.eqb_spec this.(type) "circle").
Qed.

Lemma containsPoint_polygon_dispatch this plat plng :
  this.(type) = "polygon" ->
  containsPoint Math this plat plng
  = if 3 <=? length this.(coordinates)
    then inr (even_odd plat plng this.(coordinates))
    else inr false.
Proof.
  intros Ht. unfold containsPoint.
  rewrite circle_guard_other by (by rewrite Ht).
  rewrite Ht. simpl. by rewrite pointInPolygon_even_odd.
Qed.

Lemma containsPoint_other this plat plng :
  this.(type) ≠ "circle" -> this.(type) ≠ "polygon" ->
  containsPoint Math this plat plng = inr false.
Proof.
  intros Hc Hp. unfold containsPoint. rewrite circle_guard_other by done.
  by destruct (String.eqb_spec this.(type) "polygon").
Qed.

(** [containsPoint] always completes with a boolean. *)
Lemma containsPoint_total this plat plng :
  containsPoint Math this plat plng
  = inr (accepted (containsPoint Math this plat plng)).
Proof.
  unfold containsPoint.
  destruct (circle_guard this) as [[c r]|]; [done|].
  destruct (_ && _); [|done].
  by rewrite pointInPolygon_even_odd.
Qed.

(** C1 (the code at the failing input): a rectangle geofence is sent to
    neither branch of [containsPoint], which answers [false] at the centre
    of the rectangle although the ray-casting test over the same four
    corners answers [true]. *)
Theorem containsPoint_rectangle_misses :
  containsPoint Math (sample "rectangle" rect4 None None) 5 5 = inr false
  /\ pointInPolygon 5 5 rect4 = inr true
  /\ (forall this plat plng,
        this.(type) = "rectangle" ->
        containsPoint Math this plat plng = inr false).
Proof.
  split; [|split].
  - by vm_compute.
  - by vm_compute.
  - intros this plat plng Ht.
    apply containsPoint_other; by rewrite Ht.
Qed.

(** C3: for a circle whose centre is present and whose radius is a
    non-zero number, [containsPoint] answers whether the haversine
    distance from the point to the centre, on a sphere of 6371000 metres
    and with degrees turned into radians through [Math.PI / 180], is at
    most the radius; a distance equal to the radius counts as inside. *)
Theorem containsPoint_circle_haversine this c r plat plng :
  this.(type) = "circle" ->
  this.(center) = Some c ->
  this.(radius) = Some r ->
  Js.truthy r = true ->
  let dLat := ((c.(lat) - plat) * Js.PI / 180)%float in
  let dLng := ((c.(lng) - plng) * Js.PI / 180)%float in
  let a :=
    (Js.sin Math (dLat / 2) * Js.sin Math (dLat / 2)
     + Js.cos Math (plat * Js.PI / 180) * Js.cos Math (c.(lat) * Js.PI / 180)
       * Js.sin Math (dLng / 2) * Js.sin Math (dLng / 2))%float in
  let d :=
    (6371000 * (2 * Js.atan2 Math (Js.sqrt a) (Js.sqrt (1 - a))))%float in
  calculateDistance Math plat plng c.(lat) c.(lng) = d
  /\ containsPoint Math this plat plng = inr (Js.le d r)
  /\ (Js.strict_eq d r = true ->
      containsPoint Math this plat plng = inr true).
Proof.
  intros Ht Hc Hr Htruthy dLat dLng a d.
  assert (Hcp : containsPoint Math this plat plng = inr (Js.le d r)).
  { unfold containsPoint, circle_guard. by rewrite Ht, Hc, Hr, Htruthy. }
  split; [done|]. split; [done|].
  intros Heq. by rewrite Hcp, (strict_eq_le _ _ Heq).
Qed.

(** C4: for a polygon with at least three vertices, [containsPoint] is the
    even-odd rule over the edges, each vertex paired with its predecessor
    and the first with the last: an edge toggles the flag when exactly one
    endpoint is strictly above the query latitude and the intersection is
    strictly beyond the query longitude. *)
Theorem containsPoint_polygon_even_odd this plat plng :
  this.(type) = "polygon" ->
  3 <= length this.(coordinates) ->
  containsPoint Math this plat plng
  = inr (even_odd plat plng this.(coordinates)).
Proof.
  intros Ht Hlen. rewrite containsPoint_polygon_dispatch by done.
  by destruct (Nat.leb_spec 3 (length this.(coordinates))); [|lia].
Qed.

(** C5: [containsPoint] never throws, and answers [false] for a polygon
    with fewer than three vertices, for a circle without centre or
    radius, and for a kind that is not recognised. *)
Theorem containsPoint_never_throws this plat plng :
  (exists b, containsPoint Math this plat plng = inr b)
  /\ (this.(type) = "polygon" -> length this.(coordinates) < 3 ->
      containsPoint Math this plat plng = inr false)
  /\ (this.(type) = "circle" ->
      this.(center) = None \/ this.(radius) = None ->
      containsPoint Math this plat plng = inr false)
  /\ (this.(type) ∉ ["polygon"; "circle"; "rectangle"] ->
      containsPoint Math this plat plng = inr false).
Proof.
  split; [|split; [|split]].
  - eexists. apply containsPoint_total.
  - intros Ht Hlen. rewrite containsPoint_polygon_dispatch by done.
    by destruct (Nat.leb_spec 3 (length this.(coordinates))); [lia|].
  - intros Ht Hmissing. unfold containsPoint, circle_guard. rewrite Ht.
    simpl. by destruct Hmissing as [-> | ->]; [|destruct (center this)].
  - intros Hkind. apply containsPoint_other; intros Heq; apply Hkind;
      rewrite Heq; repeat constructor.
Qed.

End Containment.

(** C8: appending a copy of the first vertex to a list of at least three
    vertices does not change the answer of [pointInPolygon]. *)
Theorem pointInPolygon_closure_insensitive plat plng coordinates first :
  3 <= length coordinates ->
  head coordinates = Some first ->
  pointInPolygon plat plng (coordinates ++ [first])
  = pointInPolygon plat plng coordinates.
Proof.
  intros _ Hhead. destruct coordinates as [|v rest]; [done|].
  injection Hhead as ->.
  by rewrite !pointInPolygon_even_odd, even_odd_closed.
Qed.

(** ** Selecting the containing geofences *)

Section Filter.

Context {A : Type} (callback : A -> completion bool) (f : A -> bool).
Hypothesis callback_total : forall x, callback x = inr (f x).

Lemma filter_from_total xs : forall kept,
  filter_from callback xs kept = (xs, inr (kept ++ List.filter f xs)).
Proof.
  induction xs as [|x xs IH]; intros kept; simpl.
  - by rewrite app_nil_r.
  - rewrite callback_total, IH. destruct (f x); [|done].
    by rewrite <- app_assoc.
Qed.

Lemma filter_sublist_of xs : List.filter f xs `sublist_of` xs.
Proof.
  induction xs as [|x xs IH]; simpl; [constructor|].
  destruct (f x); by constructor.
Qed.

Lemma filter_all_accepted xs : Forall (fun x => f x = true) (List.filter f xs).
Proof.
  induction xs as [|x xs IH]; simpl; [constructor|].
  destruct (f x) eqn:E; [by constructor | done].
Qed.

Lemma filter_greatest xs others :
  others `sublist_of` xs ->
  Forall (fun x => f x = true) others ->
  others `sublist_of` List.filter f xs.
Proof.
  induction 1 as [|x l1 l2 _ IH|x l1 l2 _ IH]; intros Hall; simpl.
  - constructor.
  - apply Forall_cons in Hall as [-> Hall]. constructor. by apply IH.
  - destruct (f x); [constructor|]; by apply IH.
Qed.

Lemma filter_none xs :
  Forall (fun x => f x <> true) xs -> List.filter f xs = [].
Proof.
  induction 1 as [|x xs Hx _ IH]; simpl; [done|].
  by destruct (f x).
Qed.

End Filter.

Section Selection.

Context (Math : Js.MathLib) (plat plng : float).

Lemma contains_accepted g :
  contains Math plat plng g
  <-> accepted (containsPoint Math g plat plng) = true.
Proof.
  unfold contains. rewrite (containsPoint_total Math g plat plng) at 1.
  split; [by intros [= ->] | by intros ->].
Qed.

Lemma js_filter_containsPoint geofences :
  js_filter (fun geofence => containsPoint Math geofence plat plng) geofences
  = (geofences,
     inr (List.filter
            (fun g => accepted (containsPoint Math g plat plng)) geofences)).
Proof.
  unfold js_filter.
  by rewrite (filter_from_total _ _ (fun g => containsPoint_total Math g _ _)).
Qed.

(** C6: [findContaining] never throws; its result is a subsequence of the
    input, in the input's order, made of geofences that contain the
    point, and every subsequence of the input made of such geofences is a
    subsequence of it; it is empty when no geofence contains the point. *)
Theorem findContaining_subsequence geofences :
  exists matches,
    findContaining Math geofences plat plng = inr matches
    /\ matches `sublist_of` geofences
    /\ Forall (contains Math plat plng) matches
    /\ (forall others,
          others `sublist_of` geofences ->
          Forall (contains Math plat plng) others ->
          others `sublist_of` matches)
    /\ (Forall (fun g => ~ contains Math plat plng g) geofences ->
        matches = []).
Proof.
  eexists. unfold findContaining. rewrite js_filter_containsPoint. simpl.
  split; [done|]. split; [apply filter_sublist_of|].
  split; [|split].
  - eapply Forall_impl; [apply filter_all_accepted|].
    intros g. apply contains_accepted.
  - intros others Hsub Hall. apply filter_greatest; [done|].
    eapply Forall_impl; [exact Hall|]. intros g. apply contains_accepted.
  - intros Hnone. apply filter_none.
    eapply Forall_impl; [exact Hnone|].
    intros g Hg Hacc. by apply Hg, contains_accepted.
Qed.

(** The handler answers 200 with the selected geofences and their count
    when both coordinates are truthy. *)
Lemma checkPoint_ok store user :
  Js.truthy plat = true -> Js.truthy plng = true ->
  exists matches,
    findContaining Math (find_active store user) plat plng = inr matches
    /\ checkPoint Math store user {| Point.lat := Some plat; Point.lng := Some plng |}
       = ({| status := 200;
             payload := PointCheck (plat, plng) (0 <? length matches)
                          matches (length matches) |},
          find_active store user).
Proof.
  intros Hlat Hlng. eexists. unfold findContaining, checkPoint. simpl.
  rewrite Hlat, Hlng, js_filter_containsPoint. simpl. done.
Qed.

End Selection.

(** C10: a check-point request whose latitude or longitude is [0] or
    missing is answered 400 with "Latitude and longitude are required", and
    [containsPoint] is called on no geofence. *)
Theorem checkPoint_rejects_zero Math store user body :
  zero_or_absent body.(Point.lat) \/ zero_or_absent body.(Point.lng) ->
  checkPoint Math store user body
  = (bad_request "Latitude and longitude are required", []).
Proof.
  unfold checkPoint, zero_or_absent, Js.truthy, Js.strict_eq.
  destruct body as [[x|] [y|]]; simpl; try done.
  by intros [-> | ->]; rewrite ?orb_true_r.
Qed.

(** ** The geometry normaliser *)

Section Normaliser.

Lemma toGeo_fromGeo (ring : list (float * float)) :
  toGeo <$> (fromGeo <$> ring) = ring.
Proof.
  rewrite <- list_fmap_compose. rewrite <- (list_fmap_id ring) at 2.
  apply list_fmap_ext. by intros _ [x y] _.
Qed.

Lemma at_index_last {A} (xs : list A) x :
  last xs = Some x -> at_index xs (length xs - 1) = inr x.
Proof.
  intros H. unfold at_index. by rewrite Nat.sub_1_r, <- last_lookup, H.
Qed.

(** One closing pass on a non-empty list of positions whose first
    position equals itself. *)
Lemma closeRing_closed first rest :
  positions_differ first first = false ->
  exists ring final,
    closeRing (first :: rest) = inr ring
    /\ head ring = Some first
    /\ last ring = Some final
    /\ positions_differ first final = false
    /\ closeRing ring = inr ring.
Proof.
  intros Hsame.
  destruct (last (first :: rest)) as [final|] eqn:Hlast.
  2: { by apply last_None in Hlast. }
  unfold closeRing at 1. rewrite (at_index_last _ _ Hlast). simpl.
  destruct (positions_differ first final) eqn:Hdiff.
  - exists ((first :: rest) ++ [first]), first.
    split; [done|]. split; [done|]. split; [apply last_snoc|].
    split; [done|].
    unfold closeRing. rewrite (at_index_last _ first) by apply last_snoc.
    simpl. by rewrite Hsame.
  - exists (first :: rest), final. repeat split; try done.
    unfold closeRing. rewrite (at_index_last _ _ Hlast). simpl.
    by rewrite Hdiff.
Qed.

(** C7: for at least three vertices within the schema's ranges, one pass
    of the ring-closing procedure yields a ring whose first and last
    positions are equal, and a second pass over that ring yields the same
    ring. *)
Theorem ringOf_closed_idempotent coordinates :
  3 <= length coordinates ->
  Forall (fun c => valid_LatLng c = true) coordinates ->
  exists ring first final,
    ringOf coordinates = inr ring
    /\ head ring = Some first
    /\ last ring = Some final
    /\ positions_differ first final = false
    /\ ringOf (fromGeo <$> ring) = inr ring.
Proof.
  intros Hlen Hvalid. destruct coordinates as [|v rest]; [simpl in Hlen; lia|].
  apply Forall_cons in Hvalid as [Hv _].
  destruct (closeRing_closed (toGeo v) (toGeo <$> rest))
    as (ring & final & Hring & Hhead & Hlast & Hsame & Hagain).
  { by apply valid_LatLng_same. }
  exists ring, (toGeo v), final. unfold ringOf.
  by rewrite toGeo_fromGeo.
Qed.

Lemma preSave_unmodified isModified this :
  (forall path, isModified path = false) ->
  preSave isModified this = inr this.
Proof. intros H. unfold preSave. by rewrite !H. Qed.

(** C2, as the code has it: on a polygon of fewer than three vertices and
    on a rectangle of fewer than two the pre-save hook leaves the document,
    and with it the geometry, unchanged and completes without an error. *)
Theorem preSave_too_few_unchanged isModified this :
  too_few_vertices this = true ->
  preSave isModified this = inr this.
Proof.
  unfold too_few_vertices, preSave. intros H.
  destruct (_ || _ || _ || _); [|done].
  destruct (String.eqb_spec this.(type) "circle") as [Hc|Hc];
    destruct (String.eqb_spec this.(type) "polygon") as [Hp|Hp];
    destruct (String.eqb_spec this.(type) "rectangle") as [Hr|Hr];
    try congruence;
    destruct (Nat.ltb_spec (length this.(coordinates)) 3);
    destruct (Nat.ltb_spec (length this.(coordinates)) 2);
    destruct (Nat.leb_spec 3 (length this.(coordinates)));
    destruct (Nat.leb_spec 2 (length this.(coordinates)));
    try lia; simpl in *; done.
Qed.

(** On a circle whose centre was never given the hook does write a
    geometry: the point of two undefined coordinates. *)
Lemma preSave_circle_without_center isModified this :
  isModified "coordinates" || isModified "type"
  || isModified "center" || isModified "radius" = true ->
  this.(type) = "circle" ->
  this.(center) = None ->
  preSave isModified this
  = inr (set_geometry
           {| geoType := "Point"; geoCoordinates := UndefinedPosition |}
           this).
Proof. intros Hm Ht Hc. unfold preSave. by rewrite Hm, Ht, Hc. Qed.

(** The create route refuses a polygon with fewer than three coordinates
    and a circle without centre or radius before any document is built. *)
Lemma create_rejects_insufficient store user fresh body :
  (body.(Body.type) = Some "polygon"
   /\ length (default [] body.(Body.coordinates)) < 3)
  \/ (body.(Body.type) = Some "circle"
      /\ (body.(Body.center) = None \/ body.(Body.radius) = None)) ->
  exists message, create store user fresh body = (bad_request message, store).
Proof.
  intros H. unfold create.
  assert (exists message, create_rejects body = Some message) as [m ->];
    [|by eexists].
  unfold create_rejects.
  destruct (Body.name body) as [n|]; [|by eexists].
  destruct (Body.coordinates body) as [cs|]; [|by eexists].
  destruct (_ || _); [by eexists|].
  destruct H as [[-> Hlen] | [-> Hmissing]]; simpl in *.
  - apply Nat.ltb_lt in Hlen. rewrite Hlen. by eexists.
  - destruct Hmissing as [-> | ->]; simpl; rewrite ?orb_true_r; by eexists.
Qed.

End Normaliser.

(** C2 (counterexample): the hook run on a polygon with two vertices, every
    path modified, completes with the unchanged document and no
    [ValidationError]. *)
Lemma preSave_two_vertices_no_error :
  insufficient (sample "polygon" segment2 None None) = true
  /\ preSave (fun _ => true) (sample "polygon" segment2 None None)
     = inr (sample "polygon" segment2 None None)
  /\ ~ (exists path,
          preSave (fun _ => true) (sample "polygon" segment2 None None)
          = inl (Js.ValidationError path)).
Proof.
  split; [by vm_compute|]. split; [by vm_compute|].
  intros [path H]. vm_compute in H. discriminate.
Qed.

(** ** Write paths and the radius *)

(** C3 (counterexample): a circle with centre (0, 0) and radius 0, both
    present, and the query point (0, 0). [containsPoint] answers [false],
    whatever the [Math] functions; the haversine distance is at most the
    radius whenever [Math.sin(0)] is 0, [Math.cos(0)] is 1 and
    [Math.atan2(0, 1)] is 0, the values the language fixes, and so it is
    under the small-angle functions. *)
Lemma zero_radius_excludes_centre :
  let g := sample "circle" [origin] (Some origin) (Some 0%float) in
  g.(type) = "circle"
  /\ g.(center) = Some origin
  /\ g.(radius) = Some 0%float
  /\ (forall Math, containsPoint Math g 0 0 = inr false)
  /\ (forall Math,
        Js.sin Math 0 = 0%float ->
        Js.cos Math 0 = 1%float ->
        Js.atan2 Math 0 1 = 0%float ->
        Js.le (calculateDistance Math 0 0 origin.(lat) origin.(lng)) 0
        = true)
  /\ Js.le (calculateDistance Js.small_angle 0 0 origin.(lat) origin.(lng)) 0
     = true.
Proof.
  repeat split.
  - intros [s c t] Hs Hc Ht. simpl in Hs, Hc, Ht.
    vm_compute. rewrite Hs, Hc. vm_compute. rewrite Ht. reflexivity.
Qed.

(** C9 (the code at the failing input): an update that sets the radius of a
    stored circle to [0] passes the schema's [min: 0] validator and is
    written back, while the same radius is refused on create. *)
Theorem update_stores_zero_radius :
  let stored :=
    set_geometry {| geoType := "Point"; geoCoordinates := Position (0, 0)%float |}
      (sample "circle" [origin] (Some origin) (Some 0%float)) in
  update circle_store "u1" "g1" zero_radius
  = ({| status := 200;
        payload := Saved "Geofence updated successfully" stored |}, [stored])
  /\ (create [] "u1" "g2" zero_circle).1
     = bad_request "Circle type requires center and radius".
Proof. split; by vm_compute. Qed.

(** ** Closed instances *)

Lemma containsPoint_circle_haversine_witness :
  Js.truthy 1000 = true
  /\ containsPoint Js.small_angle
       (sample "circle" [origin] (Some origin) (Some 1000%float)) 0.5 0.25
     = inr (Js.le (calculateDistance Js.small_angle 0.5 0.25 0 0) 1000).
Proof.
  split; [reflexivity|].
  exact (proj1 (proj2
    (containsPoint_circle_haversine Js.small_angle
       (sample "circle" [origin] (Some origin) (Some 1000%float))
       origin 1000%float 0.5%float 0.25%float
       eq_refl eq_refl eq_refl eq_refl))).
Defined.

Lemma containsPoint_polygon_even_odd_witness :
  3 <= length square4
  /\ containsPoint Js.small_angle (sample "polygon" square4 None None) 5 5
     = inr true
  /\ containsPoint Js.small_angle (sample "polygon" square4 None None) 20 20
     = inr false.
Proof.
  assert (H : 3 <= length square4) by (simpl; lia).
  split; [exact H|]. split.
  - exact (containsPoint_polygon_even_odd Js.small_angle
             (sample "polygon" square4 None None) 5 5 eq_refl H).
  - exact (containsPoint_polygon_even_odd Js.small_angle
             (sample "polygon" square4 None None) 20 20 eq_refl H).
Defined.

Lemma pointInPolygon_closure_insensitive_witness :
  3 <= length square4
  /\ head square4 = Some origin
  /\ pointInPolygon 5 5 (square4 ++ [origin]) = pointInPolygon 5 5 square4.
Proof.
  assert (H : 3 <= length square4) by (simpl; lia).
  split; [exact H|]. split; [reflexivity|].
  exact (pointInPolygon_closure_insensitive 5 5 square4 origin H eq_refl).
Defined.

Lemma ringOf_closed_idempotent_witness :
  3 <= length square4
  /\ Forall (fun c => valid_LatLng c = true) square4
  /\ exists ring first final,
       ringOf square4 = inr ring
       /\ head ring = Some first
       /\ last ring = Some final
       /\ positions_differ first final = false
       /\ ringOf (fromGeo <$> ring) = inr ring.
Proof.
  assert (H : 3 <= length square4) by (simpl; lia).
  assert (V : Forall (fun c => valid_LatLng c = true) square4)
    by (repeat constructor).
  split; [exact H|]. split; [exact V|].
  exact (ringOf_closed_idempotent square4 H V).
Defined.

Lemma preSave_too_few_unchanged_witness :
  too_few_vertices (sample "rectangle" [origin] None None) = true
  /\ preSave (fun _ => true) (sample "rectangle" [origin] None None)
     = inr (sample "rectangle" [origin] None None).
Proof.
  split; [reflexivity|].
  exact (preSave_too_few_unchanged (fun _ => true)
           (sample "rectangle" [origin] None None) eq_refl).
Defined.

Lemma checkPoint_rejects_zero_witness :
  zero_or_absent (Some 0%float)
  /\ checkPoint Js.small_angle three_geofences "u1"
       {| Point.lat := Some 0%float; Point.lng := Some 5%float |}
     = (bad_request "Latitude and longitude are required", []).
Proof.
  assert (H : zero_or_absent (Some 0%float)) by reflexivity.
  split; [exact H|].
  exact (checkPoint_rejects_zero Js.small_angle three_geofences "u1"
           {| Point.lat := Some 0%float; Point.lng := Some 5%float |}
           (or_introl H)).
Defined.

(** The scenarios of the specification that the code meets. *)

Example square_contains_centre :
  pointInPolygon 5 5 square4 = inr true
  /\ pointInPolygon 20 20 square4 = inr false.
Proof. split; by vm_compute. Qed.

Example second_of_three Math :
  findContaining Math three_geofences 5 5
  = inr [sample "polygon" square4 None None].
Proof. by vm_compute. Qed.

Example ring_of_square :
  ringOf square4
  = inr [(0, 0); (10, 0); (10, 10); (0, 10); (0, 0)]%float.
Proof. by vm_compute. Qed.

(** ** Further properties of the evaluator *)

Section Ring.

Context (plat plng : float).

Lemma even_odd_rotate_one v rest :
  even_odd plat plng (rest ++ [v]) = even_odd plat plng (v :: rest).
Proof.
  unfold even_odd, edges. rewrite last_snoc, edges_from_snoc, fold_left_app.
  destruct (last (v :: rest)) as [final|] eqn:Hlast.
  2: { by apply last_None in Hlast. }
  assert (default v (last rest) = final) as ->.
  { rewrite last_cons in Hlast. destruct (last rest); simpl; congruence. }
  simpl. rewrite (fold_toggle_xorb plat plng _ (toggle _ _ _ _)), !toggle_xorb.
  by destruct (crossing plat plng (v, final)),
    (fold_left (toggle plat plng) (edges_from v rest) false).
Qed.

Lemma even_odd_rotate front back :
  even_odd plat plng (back ++ front) = even_odd plat plng (front ++ back).
Proof.
  revert back. induction front as [|v front IH]; intros back.
  - by rewrite app_nil_r.
  - rewrite (cons_middle v back front), app_assoc, IH.
    rewrite app_assoc. apply even_odd_rotate_one.
Qed.

(** X1: the answer of [pointInPolygon] does not depend on the vertex the
    ring starts at. *)
Theorem pointInPolygon_rotation front back :
  pointInPolygon plat plng (back ++ front)
  = pointInPolygon plat plng (front ++ back).
Proof. by rewrite !pointInPolygon_even_odd, even_odd_rotate. Qed.

Lemma edges_from_endpoints prev vs e :
  e ∈ edges_from prev vs -> e.1 ∈ vs /\ e.2 ∈ prev :: vs.
Proof.
  revert prev. induction vs as [|v vs IH]; intros prev; simpl.
  - by intros ?%elem_of_nil.
  - intros [-> | H]%elem_of_cons; simpl.
    + split; constructor.
    + destruct (IH _ H) as [H1 H2]. split; [by constructor|].
      by do 1 constructor.
Qed.

Lemma edges_endpoints vs e : e ∈ edges vs -> e.1 ∈ vs /\ e.2 ∈ vs.
Proof.
  unfold edges. destruct (last vs) as [final|] eqn:Hlast.
  - intros [H1 H2]%edges_from_endpoints. split; [done|].
    apply elem_of_cons in H2 as [-> | H2]; [|done].
    apply last_Some in Hlast as [l' ->]. apply elem_of_app. right.
    constructor.
  - by intros ?%elem_of_nil.
Qed.

Lemma fold_toggle_none es :
  Forall (fun e => crossing plat plng e = false) es ->
  fold_left (toggle plat plng) es false = false.
Proof.
  induction 1 as [|e es He _ IH]; simpl; [done|].
  by rewrite toggle_xorb, He.
Qed.

(** X2: when the comparison [vertex.lat > lat] gives the same answer at
    every vertex (no vertex is strictly north of the point, or all are, or
    the latitude is NaN), [pointInPolygon] answers [false]. *)
Theorem pointInPolygon_outside_band coordinates b :
  Forall (fun v => Js.gt v.(lat) plat = b) coordinates ->
  pointInPolygon plat plng coordinates = inr false.
Proof.
  intros Hall. rewrite pointInPolygon_even_odd. f_equal.
  apply fold_toggle_none, Forall_forall. intros [vi vj] He.
  apply edges_endpoints in He as [Hi Hj]. simpl in *.
  rewrite Forall_forall in Hall.
  unfold crossing. simpl. rewrite (Hall _ Hi), (Hall _ Hj).
  by destruct b.
Qed.

End Ring.

(** X3: a circle whose radius is [0], [-0] or NaN contains no point, its
    centre included. *)
Theorem containsPoint_falsy_radius Math this r plat plng :
  this.(type) = "circle" ->
  this.(radius) = Some r ->
  Js.truthy r = false ->
  containsPoint Math this plat plng = inr false.
Proof.
  intros Ht Hr Hfalsy. unfold containsPoint, circle_guard.
  rewrite Ht, Hr, Hfalsy. simpl. by destruct (center this).
Qed.

(** ** Further properties of the normaliser *)

Section Hook.

Lemma set_geometry_same this : set_geometry this.(geometry) this = this.
Proof. by destruct this. Qed.

(** The closing step on a non-empty list never fails and keeps every
    position, adding at most a copy of the first one. *)
Lemma closeRing_shape first rest :
  closeRing (first :: rest) = inr (first :: rest)
  \/ closeRing (first :: rest) = inr ((first :: rest) ++ [first]).
Proof.
  destruct (last (first :: rest)) as [final|] eqn:Hlast.
  2: { by apply last_None in Hlast. }
  unfold closeRing. rewrite (at_index_last _ _ Hlast). simpl.
  destruct (positions_differ first final); [by right | by left].
Qed.

Lemma ringOf_shape coordinates :
  coordinates <> [] ->
  exists ring,
    ringOf coordinates = inr ring
    /\ (ring = toGeo <$> coordinates
        \/ exists first,
             head (toGeo <$> coordinates) = Some first
             /\ ring = (toGeo <$> coordinates) ++ [first]).
Proof.
  intros Hne. destruct coordinates as [|v rest]; [done|].
  unfold ringOf. rewrite fmap_cons.
  destruct (closeRing_shape (toGeo v) (toGeo <$> rest)) as [-> | ->];
    eexists; (split; [done|]); [by left | right; by eexists].
Qed.

Lemma length_nonempty {A} (xs : list A) n : S n <= length xs -> xs <> [].
Proof. destruct xs; simpl; [lia | done]. Qed.

(** The hook completes with the document under some geometry. *)
Lemma preSave_sets_geometry isModified this :
  exists g, preSave isModified this = inr (set_geometry g this).
Proof.
  unfold preSave.
  destruct (_ || _ || _ || _);
    [|exists this.(geometry); by rewrite set_geometry_same].
  assert (Hkeep : exists g, (mret this : completion Geofence)
                            = inr (set_geometry g this)).
  { exists this.(geometry). by rewrite set_geometry_same. }
  assert (Hring : forall n, S n <= length this.(coordinates) ->
            exists g,
              (geoCoords ← ringOf this.(coordinates);
               mret (set_geometry
                       {| geoType := "Polygon";
                          geoCoordinates := Rings [geoCoords] |} this))
              = inr (set_geometry g this)).
  { intros n Hn.
    destruct (ringOf_shape _ (length_nonempty _ _ Hn)) as (ring & -> & _).
    by eexists. }
  assert (Hrest : exists g,
            (if String.eqb this.(type) "polygon"
                && (3 <=? length this.(coordinates))
             then
               geoCoords ← ringOf this.(coordinates);
               mret (set_geometry
                       {| geoType := "Polygon";
                          geoCoordinates := Rings [geoCoords] |} this)
             else if String.eqb this.(type) "rectangle"
                     && (2 <=? length this.(coordinates))
             then
               geoCoords ← ringOf this.(coordinates);
               mret (set_geometry
                       {| geoType := "Polygon";
                          geoCoordinates := Rings [geoCoords] |} this)
             else mret this)
            = inr (set_geometry g this)).
  { destruct (String.eqb this.(type) "polygon" && _) eqn:Hp.
    - apply andb_true_iff in Hp as [_ Hp%Nat.leb_le]. by apply (Hring 2).
    - destruct (String.eqb this.(type) "rectangle" && _) eqn:Hr; [|done].
      apply andb_true_iff in Hr as [_ Hr%Nat.leb_le]. by apply (Hring 1). }
  destruct (String.eqb this.(type) "circle"), this.(center);
    first [exact Hrest | by eexists].
Qed.

(** X4: the pre-save hook never fails, whatever the document, and changes
    no field other than [geometry]. *)
Theorem preSave_only_geometry isModified this :
  exists saved,
    preSave isModified this = inr saved
    /\ saved.(_id) = this.(_id)
    /\ saved.(name) = this.(name)
    /\ saved.(coordinates) = this.(coordinates)
    /\ saved.(type) = this.(type)
    /\ saved.(center) = this.(center)
    /\ saved.(radius) = this.(radius)
    /\ saved.(isActive) = this.(isActive)
    /\ saved.(createdBy) = this.(createdBy).
Proof.
  destruct (preSave_sets_geometry isModified this) as [g ->].
  eexists. split; [done|]. by repeat split.
Qed.

Lemma set_geometry_inj g1 g2 this :
  set_geometry g1 this = set_geometry g2 this -> g1 = g2.
Proof. unfold set_geometry. by intros [= ->]. Qed.

(** X5: running the hook on its own result changes nothing: a second save
    of an unchanged document leaves the geometry as the first one set it. *)
Theorem preSave_idempotent isModified this saved :
  preSave isModified this = inr saved ->
  preSave isModified saved = inr saved.
Proof.
  intros H.
  destruct (preSave_sets_geometry isModified this) as [g Hg].
  rewrite Hg in H. injection H as <-.
  revert Hg. unfold preSave. cbn [type center coordinates set_geometry].
  destruct (_ || _ || _ || _); [|done].
  assert (Hsame : forall g' : Geometry,
            (inr (set_geometry g' this) : completion Geofence)
            = inr (set_geometry g this) ->
            (inr (set_geometry g' (set_geometry g this)) : completion Geofence)
            = inr (set_geometry g this)).
  { intros g' H. by rewrite (set_geometry_inj g' g this) by congruence. }
  destruct (String.eqb this.(type) "circle"), this.(center);
    try (by apply Hsame);
    (destruct (String.eqb this.(type) "polygon" && _);
     [| destruct (String.eqb this.(type) "rectangle" && _); [|done]]);
    destruct (ringOf this.(coordinates)); simpl;
    first [by apply Hsame | done].
Qed.

(** X6: for a polygon of at least three vertices, and for a rectangle of at
    least two, a save that touches a shape field stores one ring that is
    [formattedCoordinates], followed by a copy of its first position when
    the hook closes it: no position is dropped, reordered or computed. *)
Theorem preSave_ring isModified this :
  isModified "coordinates" || isModified "type"
  || isModified "center" || isModified "radius" = true ->
  (this.(type) = "polygon" /\ 3 <= length this.(coordinates))
  \/ (this.(type) = "rectangle" /\ 2 <= length this.(coordinates)) ->
  exists ring,
    preSave isModified this
    = inr (set_geometry
             {| geoType := "Polygon"; geoCoordinates := Rings [ring] |} this)
    /\ (ring = formattedCoordinates this
        \/ exists first,
             head (formattedCoordinates this) = Some first
             /\ ring = formattedCoordinates this ++ [first]).
Proof.
  intros Hm Hkind. unfold preSave. rewrite Hm.
  assert (Hne : this.(coordinates) <> []).
  { destruct Hkind as [[_ H] | [_ H]]; by eapply length_nonempty. }
  destruct (ringOf_shape _ Hne) as (ring & Hring & Hshape).
  exists ring. split; [|exact Hshape].
  destruct Hkind as [[Ht Hlen] | [Ht Hlen]];
    apply Nat.leb_le in Hlen; rewrite Ht, Hlen; simpl; by rewrite Hring.
Qed.

End Hook.

(** ** The store under the write handlers *)

Section Writes.

Lemma validate_set_geometry g this :
  validate (set_geometry g this) = validate this.
Proof. reflexivity. Qed.

Lemma save_inr isModified this saved :
  save isModified this = inr saved ->
  valid this /\ valid saved /\ exists g, saved = set_geometry g this.
Proof.
  unfold save, valid. destruct (validate this) as [e|[]] eqn:Hv; [done|].
  simpl. intros H.
  destruct (preSave_sets_geometry isModified this) as [g Hg].
  rewrite Hg in H. injection H as <-.
  rewrite validate_set_geometry. eauto.
Qed.

Lemma save_unmodified isModified this :
  valid this ->
  isModified "coordinates" || isModified "type"
  || isModified "center" || isModified "radius" = false ->
  save isModified this = inr this.
Proof.
  unfold save, valid, preSave. intros -> ->. done.
Qed.

Lemma findOne_Some store user id g :
  findOne store user id = Some g ->
  g ∈ store /\ g.(_id) = id /\ g.(createdBy) = user.
Proof.
  unfold findOne, owned_by. intros [Hin Hf]%find_some.
  apply andb_true_iff in Hf as [Hi%String.eqb_eq Hu%String.eqb_eq].
  by rewrite list_elem_of_In.
Qed.

Lemma ids_replace doc store :
  _id <$> replace doc store = _id <$> store.
Proof.
  unfold replace. rewrite <- list_fmap_compose. apply list_fmap_ext.
  intros _ g _. simpl.
  by destruct (String.eqb_spec g.(_id) doc.(_id)).
Qed.

Lemma replace_Forall (P : Geofence -> Prop) doc store :
  P doc -> Forall P store -> Forall P (replace doc store).
Proof.
  intros Hdoc Hall. unfold replace. apply Forall_fmap.
  eapply Forall_impl; [exact Hall|]. intros g Hg. simpl.
  by destruct (String.eqb g.(_id) doc.(_id)).
Qed.

Lemma consistent_replace doc store :
  valid doc -> consistent store -> consistent (replace doc store).
Proof.
  intros Hdoc [Hall Hids]. split; [by apply replace_Forall|].
  by rewrite ids_replace.
Qed.

(** X7: the three write handlers keep the store consistent: every
    document in it has passed the schema's validators, and identifiers stay
    distinct (for [create], when the assigned identifier is new). *)
Theorem writes_keep_consistent store user id body :
  consistent store ->
  (id ∉ _id <$> store -> consistent (create store user id body).2)
  /\ consistent (update store user id body).2
  /\ consistent (remove store user id).2.
Proof.
  intros Hc. split; [|split].
  - intros Hfresh. unfold create.
    destruct (create_rejects body); [done|].
    destruct (save _ _) as [e|saved] eqn:Hsave; [done|].
    apply save_inr in Hsave as (_ & Hvalid & g & ->).
    destruct Hc as [Hall Hids]. simpl. split.
    + apply Forall_app. split; [done|]. by constructor.
    + rewrite fmap_app. apply NoDup_app. split; [done|].
      split; [|apply NoDup_singleton].
      simpl. intros x Hx ->%list_elem_of_singleton. done.
  - unfold update. destruct (findOne store user id); [|done].
    destruct (save _ _) as [e|saved] eqn:Hsave; [done|].
    apply save_inr in Hsave as (_ & Hvalid & _).
    by apply consistent_replace.
  - unfold remove. destruct (findOne store user id); [|done].
    destruct (save _ _) as [e|saved] eqn:Hsave; [done|].
    apply save_inr in Hsave as (_ & Hvalid & _).
    by apply consistent_replace.
Qed.

(** X8: [create] either answers 201 and appends one document, owned by the
    caller, active and carrying the assigned identifier, or answers 400 or
    500 and leaves the store as it was; it never touches a stored
    document. *)
Theorem create_outcome store user fresh body :
  let r := create store user fresh body in
  (exists saved,
     r.1 = {| status := 201;
              payload := Saved "Geofence created successfully" saved |}
     /\ r.2 = store ++ [saved]
     /\ saved.(_id) = fresh
     /\ saved.(createdBy) = user
     /\ saved.(isActive) = true)
  \/ ((r.1.(status) = 400 \/ r.1.(status) = 500) /\ r.2 = store).
Proof.
  unfold create. destruct (create_rejects body); [right; auto|].
  destruct (save _ _) as [e|saved] eqn:Hsave; [right; auto|].
  apply save_inr in Hsave as (_ & _ & g & ->).
  left. by eexists.
Qed.

End Writes.

Section Requests.

Lemma validate_inr this :
  validate this = inr tt <->
  negb (String.eqb this.(name) "")
  && (js_length this.(name) <=? 100) = true
  /\ forallb valid_LatLng this.(coordinates) = true
  /\ bool_decide (this.(type) ∈ ["polygon"; "circle"; "rectangle"]) = true
  /\ match this.(center) with Some c => valid_LatLng c | None => true end
     = true
  /\ match this.(radius) with Some r => Js.ge r 0 | None => true end = true.
Proof.
  unfold validate, check.
  destruct (negb _ && _); simpl;
    [|split; [done | by intros (? & ? & ? & ? & ?)]].
  destruct (forallb _ _); simpl;
    [|split; [done | by intros (? & ? & ? & ? & ?)]].
  destruct (bool_decide _); simpl;
    [|split; [done | by intros (? & ? & ? & ? & ?)]].
  destruct (match center this with Some _ => _ | None => _ end); simpl;
    [|split; [done | by intros (? & ? & ? & ? & ?)]].
  destruct (match radius this with Some _ => _ | None => _ end); simpl;
    [done | split; [done | by intros (? & ? & ? & ? & ?)]].
Qed.

Lemma forallb_valid cs :
  Forall (fun c => valid_LatLng c = true) cs ->
  forallb valid_LatLng cs = true.
Proof. induction 1 as [|c cs Hc _ IH]; simpl; [done|]. by rewrite Hc. Qed.



(** X10: what the request checks of [create] let through and the schema
    refuses is answered 500, not 400, and nothing is stored: a name made of
    white space only, and a coordinate outside the ranges of the schema. *)
Theorem create_schema_failure store user fresh body n cs :
  create_rejects body = None ->
  body.(Body.name) = Some n ->
  body.(Body.coordinates) = Some cs ->
  (trim n = "" ->
   create store user fresh body
   = ({| status := 500;
         payload := ServerError "Error creating geofence"
                      (Js.ValidationError "name") |}, store))
  /\ (trim n <> "" -> js_length (trim n) <= 100 ->
      forallb valid_LatLng cs = false ->
      create store user fresh body
      = ({| status := 500;
            payload := ServerError "Error creating geofence"
                         (Js.ValidationError "coordinates") |}, store)).
Proof.
  intros Hpass Hname Hcoords. unfold create. rewrite Hpass, Hname, Hcoords.
  simpl. unfold save, validate, check. simpl. split.
  - intros ->. done.
  - intros Hn Hlen Hcs.
    apply String.eqb_neq in Hn. apply Nat.leb_le in Hlen.
    by rewrite Hn, Hlen, Hcs.
Qed.

End Requests.

(** ** Ownership, soft deletion and reading back *)

Section Ownership.

Lemma ids_unique (store : Store) g h :
  NoDup (_id <$> store) -> g ∈ store -> h ∈ store ->
  g.(_id) = h.(_id) -> g = h.
Proof.
  induction store as [|x store IH]; [by intros _ ?%elem_of_nil|].
  rewrite fmap_cons. intros [Hx Hnd]%NoDup_cons.
  intros [-> | Hg]%elem_of_cons [-> | Hh]%elem_of_cons Heq; try done.
  - exfalso. apply Hx. rewrite Heq. by apply list_elem_of_fmap_2.
  - exfalso. apply Hx. rewrite <- Heq. by apply list_elem_of_fmap_2.
  - by apply IH.
Qed.

Lemma owned_by_spec user id g :
  owned_by user id g = true <-> g.(_id) = id /\ g.(createdBy) = user.
Proof.
  unfold owned_by. by rewrite andb_true_iff, !String.eqb_eq.
Qed.

Lemma findOne_replace store user id g doc :
  NoDup (_id <$> store) ->
  findOne store user id = Some g ->
  doc.(_id) = id -> doc.(createdBy) = user ->
  findOne (replace doc store) user id = Some doc.
Proof.
  intros Hnd Hfind Hid Huser.
  assert (Hdoc : owned_by user id doc = true) by by apply owned_by_spec.
  unfold findOne, replace in *.
  induction store as [|x store IH]; [done|].
  rewrite fmap_cons in Hnd. apply NoDup_cons in Hnd as [Hx Hnd].
  simpl in *. destruct (owned_by user id x) eqn:Hown.
  - injection Hfind as ->. apply owned_by_spec in Hown as [Hgid _].
    rewrite Hid, Hgid, String.eqb_refl. by rewrite Hdoc.
  - destruct (String.eqb_spec x.(_id) doc.(_id)) as [Heq|_].
    + exfalso. apply Hx. apply find_some in Hfind as [Hin Hg].
      apply owned_by_spec in Hg as [Hgid _].
      rewrite Heq, Hid, <- Hgid.
      apply list_elem_of_fmap_2. by apply list_elem_of_In.
    + rewrite Hown. by apply IH.
Qed.

Lemma replace_lookup_other doc (store : list Geofence) i g :
  store !! i = Some g -> g.(_id) <> doc.(_id) ->
  replace doc store !! i = Some g.
Proof.
  intros Hi Hne. unfold replace, Store. rewrite list_lookup_fmap, Hi. simpl.
  by destruct (String.eqb_spec g.(_id) doc.(_id)).
Qed.

Lemma not_owned_other_id store user id found g :
  NoDup (_id <$> store) ->
  findOne store user id = Some found ->
  g ∈ store -> owned_by user id g = false ->
  g.(_id) <> id.
Proof.
  intros Hnd Hfind Hg Hown Heq.
  apply findOne_Some in Hfind as (Hin & Hid & Huser).
  assert (g = found) as ->
    by (apply (ids_unique store); [done | done | done | congruence]).
  assert (owned_by user id found = true) by by apply owned_by_spec.
  congruence.
Qed.

(** X11: [update] and [delete] leave every document alone that is not the
    caller's document of the given identifier: a geofence of another user,
    or another geofence of the caller, stays where and as it is. *)
Theorem writes_isolated store user id body i g :
  NoDup (_id <$> store) ->
  store !! i = Some g ->
  owned_by user id g = false ->
  (update store user id body).2 !! i = Some g
  /\ (remove store user id).2 !! i = Some g.
Proof.
  intros Hnd Hi Hown.
  assert (Hg : g ∈ store) by by eapply list_elem_of_lookup_2.
  split.
  - unfold update. destruct (findOne store user id) as [found|] eqn:Hfind;
      [|done].
    destruct (save _ _) as [e|saved] eqn:Hsave; [done|].
    apply save_inr in Hsave as (_ & _ & geo & ->). simpl.
    apply replace_lookup_other; [done|]. simpl.
    rewrite (proj1 (proj2 (findOne_Some _ _ _ _ Hfind))).
    by eapply not_owned_other_id.
  - unfold remove. destruct (findOne store user id) as [found|] eqn:Hfind;
      [|done].
    destruct (save _ _) as [e|saved] eqn:Hsave; [done|].
    apply save_inr in Hsave as (_ & _ & geo & ->). simpl.
    apply replace_lookup_other; [done|]. simpl.
    rewrite (proj1 (proj2 (findOne_Some _ _ _ _ Hfind))).
    by eapply not_owned_other_id.
Qed.

(** X12: an update that assigns none of [coordinates], [type], [center]
    and [radius] leaves the geometry and the shape fields of the document
    as they were. *)
Theorem update_without_shape store user id body g message saved :
  findOne store user id = Some g ->
  body.(Body.coordinates) = None ->
  body.(Body.type) = None ->
  body.(Body.center) = None ->
  body.(Body.radius) = None ->
  (update store user id body).1.(payload) = Saved message saved ->
  saved.(geometry) = g.(geometry)
  /\ saved.(coordinates) = g.(coordinates)
  /\ saved.(type) = g.(type)
  /\ saved.(center) = g.(center)
  /\ saved.(radius) = g.(radius).
Proof.
  intros Hfind Hcs Ht Hc Hr. unfold update. rewrite Hfind.
  destruct (save _ _) as [e|d] eqn:Hsave; [done|].
  simpl. intros [= _ <-].
  unfold save in Hsave. destruct (validate _); [done|].
  simpl in Hsave. unfold preSave, assigned in Hsave.
  rewrite Hcs, Ht, Hc, Hr in Hsave. simpl in Hsave.
  injection Hsave as <-. unfold assign. rewrite Hcs, Ht, Hc, Hr. done.
Qed.

End Ownership.

Section ReadBack.

Lemma replace_replace doc store :
  replace doc (replace doc store) = replace doc store.
Proof.
  unfold replace. rewrite <- list_fmap_compose. apply list_fmap_ext.
  intros _ g _. simpl.
  destruct (String.eqb_spec g.(_id) doc.(_id)); [|by destruct (String.eqb_spec g.(_id) doc.(_id))].
  by rewrite String.eqb_refl.
Qed.

Lemma length_replace doc store : length (replace doc store) = length store.
Proof. unfold replace. apply length_fmap. Qed.

Lemma consistent_found store user id g :
  consistent store -> findOne store user id = Some g -> valid g.
Proof.
  intros [Hall _] (Hin & _ & _)%findOne_Some.
  rewrite Forall_forall in Hall. by apply Hall.
Qed.

(** X13: [update] does not repeat the check of [create] on the number of
    coordinates: a stored polygon can be given fewer than three
    coordinates; the update is answered 200 and the geometry derived from
    the previous coordinates stays in the document. *)
Theorem update_short_polygon store user id g cs :
  findOne store user id = Some g ->
  valid g ->
  g.(type) = "polygon" ->
  length cs < 3 ->
  Forall (fun c => valid_LatLng c = true) cs ->
  let body :=
    {| Body.name := None; Body.coordinates := Some cs; Body.type := None;
       Body.center := None; Body.radius := None; Body.isActive := None |} in
  let saved := assign body g in
  update store user id body
  = ({| status := 200;
        payload := Saved "Geofence updated successfully" saved |},
     replace saved store)
  /\ saved.(coordinates) = cs
  /\ saved.(geometry) = g.(geometry).
Proof.
  intros Hfind Hvalid Ht Hlen Hcs body saved.
  split; [|done]. unfold update. rewrite Hfind. fold saved.
  assert (Hsaved : validate saved = inr tt).
  { apply validate_inr in Hvalid as (Hn & _ & Hty & Hc & Hr).
    apply validate_inr. unfold saved, assign, body. simpl.
    by rewrite (forallb_valid _ Hcs). }
  unfold save. rewrite Hsaved. simpl. unfold preSave.
  change (assigned body "coordinates") with true. cbn [orb].
  assert (Hty : saved.(type) = "polygon") by exact Ht.
  assert (Hco : saved.(coordinates) = cs) by reflexivity.
  rewrite Hty, Hco.
  destruct (Nat.leb_spec 3 (length cs)); [lia|]. done.
Qed.

Lemma remove_found store user id g :
  consistent store ->
  findOne store user id = Some g ->
  remove store user id
  = (200, Message true "Geofence deleted successfully",
     replace (set_isActive false g) store).
Proof.
  intros Hc Hfind.
  pose proof (consistent_found _ _ _ _ Hc Hfind) as Hvalid.
  unfold remove. rewrite Hfind.
  by rewrite (save_unmodified _ (set_isActive false g)).
Qed.

(** X14: [delete] keeps the document and flags it inactive: the answer is
    200, the store keeps its length, the document is still returned by the
    lookup by identifier, and the caller's active geofences no longer
    include it. *)
Theorem remove_soft store user id g :
  consistent store ->
  findOne store user id = Some g ->
  let store' := replace (set_isActive false g) store in
  remove store user id
  = (200, Message true "Geofence deleted successfully", store')
  /\ length store' = length store
  /\ getById store' user id = (200, Data (set_isActive false g))
  /\ Forall (fun h => h.(_id) <> id) (find_active store' user).
Proof.
  intros Hc Hfind store'.
  pose proof (consistent_found _ _ _ _ Hc Hfind) as Hvalid.
  destruct (findOne_Some _ _ _ _ Hfind) as (Hin & Hid & Huser).
  pose proof (proj2 Hc) as Hnd.
  split; [|split; [|split]].
  - by apply remove_found.
  - apply length_replace.
  - unfold getById, store'.
    by rewrite (findOne_replace store user id g (set_isActive false g)).
  - apply Forall_forall. intros h Hh Hhid.
    apply list_elem_of_In, filter_In in Hh as [Hh Hact].
    apply andb_true_iff in Hact as [_ Hact].
    apply list_elem_of_In in Hh. unfold store', replace in Hh.
    apply list_elem_of_fmap in Hh as (x & -> & Hx). simpl in *.
    destruct (String.eqb_spec x.(_id) g.(_id)) as [Heq|Hne]; [done|].
    congruence.
Qed.

(** X15: deleting a geofence that is already deleted is answered 200 again
    and changes nothing. *)
Theorem remove_twice store user id g :
  consistent store ->
  findOne store user id = Some g ->
  let store' := (remove store user id).2 in
  remove store' user id
  = (200, Message true "Geofence deleted successfully", store').
Proof.
  intros Hc Hfind store'.
  pose proof (remove_found store user id g Hc Hfind) as Hrem.
  pose proof (consistent_found _ _ _ _ Hc Hfind) as Hvalid.
  destruct (findOne_Some _ _ _ _ Hfind) as (_ & Hid & Huser).
  unfold store'. rewrite Hrem. simpl.
  rewrite (remove_found _ user id (set_isActive false g)).
  - by rewrite replace_replace.
  - by apply consistent_replace.
  - by apply (findOne_replace store user id g); [apply Hc|..].
Qed.

Lemma find_app_none {A} (f : A -> bool) xs ys :
  Forall (fun x => f x = false) xs ->
  List.find f (xs ++ ys) = List.find f ys.
Proof. induction 1 as [|x xs Hx _ IH]; simpl; [done|]. by rewrite Hx. Qed.

(** X16: a geofence that [create] has answered 201 for is returned by the
    lookup by identifier to its creator, and is not found for any other
    user. *)
Theorem create_then_getById store user fresh body saved :
  fresh ∉ _id <$> store ->
  (create store user fresh body).1
  = {| status := 201;
       payload := Saved "Geofence created successfully" saved |} ->
  getById (create store user fresh body).2 user fresh = (200, Data saved)
  /\ (forall other, other <> user ->
        getById (create store user fresh body).2 other fresh
        = (404, Message false "Geofence not found")).
Proof.
  intros Hfresh. unfold create.
  destruct (create_rejects body); [done|].
  destruct (save _ _) as [e|d] eqn:Hsave; [done|].
  simpl. intros [= ->].
  apply save_inr in Hsave as (_ & _ & g & ->).
  set (saved := set_geometry g _).
  assert (Hid : saved.(_id) = fresh) by reflexivity.
  assert (Huser : saved.(createdBy) = user) by reflexivity.
  clearbody saved.
  assert (Hnone : forall who,
            Forall (fun x => owned_by who fresh x = false) store).
  { intros who. apply Forall_forall. intros x Hx.
    destruct (owned_by who fresh x) eqn:Hown; [|done].
    apply owned_by_spec in Hown as [Hxid _].
    exfalso. apply Hfresh. rewrite <- Hxid. by apply list_elem_of_fmap_2. }
  unfold getById, findOne. split.
  - rewrite (find_app_none _ _ _ (Hnone user)). simpl.
    by rewrite (proj2 (owned_by_spec user fresh saved)).
  - intros other Hother. rewrite (find_app_none _ _ _ (Hnone other)). simpl.
    destruct (owned_by other fresh saved) eqn:Hown; [|done].
    apply owned_by_spec in Hown as [_ Hown]. congruence.
Qed.

(** X17: a geofence that [update] has answered 200 for is returned, as
    saved, by the lookup by identifier. *)
Theorem update_then_getById store user id body message saved :
  NoDup (_id <$> store) ->
  (update store user id body).1
  = {| status := 200; payload := Saved message saved |} ->
  getById (update store user id body).2 user id = (200, Data saved).
Proof.
  intros Hnd. unfold update.
  destruct (findOne store user id) as [g|] eqn:Hfind; [|done].
  destruct (save _ _) as [e|d] eqn:Hsave; [done|].
  simpl. intros [= _ <-].
  apply save_inr in Hsave as (_ & _ & geo & ->).
  destruct (findOne_Some _ _ _ _ Hfind) as (_ & Hid & Huser).
  unfold getById.
  by rewrite (findOne_replace store user id g
                (set_geometry geo (assign body g))).
Qed.

End ReadBack.

(** ** The check-point answer, tags and authorisation *)

Section Answers.

(** X18: with both coordinates truthy the check-point handler answers 200;
    [containsPoint] is called on the caller's active geofences and on no
    other; the geofences of the answer are exactly the caller's active
    geofences that contain the point, [count] is their number and
    [isInside] says whether there is one. *)
Theorem checkPoint_reports Math store user plat plng :
  Js.truthy plat = true ->
  Js.truthy plng = true ->
  exists matches,
    checkPoint Math store user
      {| Point.lat := Some plat; Point.lng := Some plng |}
    = ({| status := 200;
          payload := PointCheck (plat, plng) (0 <? length matches)
                       matches (length matches) |},
       find_active store user)
    /\ forall g,
         g ∈ matches
         <-> g ∈ store /\ g.(createdBy) = user /\ g.(isActive) = true
             /\ contains Math plat plng g.
Proof.
  intros Hlat Hlng.
  exists (List.filter (fun g => accepted (containsPoint Math g plat plng))
            (find_active store user)).
  split.
  - unfold checkPoint. simpl.
    by rewrite Hlat, Hlng, js_filter_containsPoint.
  - intros g. unfold find_active.
    rewrite !list_elem_of_In, !filter_In, andb_true_iff, String.eqb_eq.
    rewrite contains_accepted. tauto.
Qed.

(** X19: the check-point handler answers 200 or 400, never 500: the
    filter over the geofences cannot throw. *)
Theorem checkPoint_status Math store user body :
  (checkPoint Math store user body).1.(status) = 200
  \/ (checkPoint Math store user body).1.(status) = 400.
Proof.
  unfold checkPoint. destruct body as [[plat|] [plng|]]; simpl; auto.
  destruct (negb _ || negb _); simpl; auto.
  rewrite js_filter_containsPoint. auto.
Qed.

Lemma filter_length_le {A} (f : A -> bool) xs :
  length (List.filter f xs) <= length xs.
Proof.
  induction xs as [|x xs IH]; simpl; [done|].
  destruct (f x); simpl; lia.
Qed.

Lemma filter_all {A} (f : A -> bool) xs :
  List.filter f xs = xs <-> Forall (fun x => f x = true) xs.
Proof.
  induction xs as [|x xs IH]; simpl; [by split; [constructor|]|].
  destruct (f x) eqn:Hx.
  - split.
    + intros [= H]. constructor; [done|]. by apply IH.
    + intros [_ H]%Forall_cons. f_equal. by apply IH.
  - split.
    + intros H. pose proof (filter_length_le f xs) as Hle.
      rewrite H in Hle. simpl in Hle. lia.
    + intros [H _]%Forall_cons. congruence.
Qed.

(** X20: in the answer of the tags route [count] is the number of distinct
    tags the store returned, blank ones included, while [data] leaves the
    blank ones out: [data] is never longer than [count] says, and the two
    agree exactly when no tag is blank. *)
Theorem tagsAnswer_count tags :
  length (tagsAnswer tags).1 <= (tagsAnswer tags).2
  /\ (length (tagsAnswer tags).1 = (tagsAnswer tags).2
      <-> Forall (fun tag => nonblank tag = true) tags)
  /\ Forall (fun tag => nonblank tag = true) (tagsAnswer tags).1.
Proof.
  unfold tagsAnswer. simpl. split; [apply filter_length_le|]. split.
  - rewrite <- filter_all. split; [|by intros ->].
    induction tags as [|t tags IH]; simpl; [done|].
    destruct (nonblank t); simpl.
    + intros [= H]. f_equal. by apply IH.
    + intros H. pose proof (filter_length_le nonblank tags). lia.
  - apply filter_all_accepted.
Qed.

(** X21: [requireAdmin] lets through whom [requireRole('admin')] lets
    through, and [requireClient] whom [requireRole(['client', 'admin'])]
    lets through. *)
Theorem role_middlewares_agree user :
  (Auth.requireAdmin user = Auth.Next
   <-> Auth.requireRole (Auth.One "admin") user = Auth.Next)
  /\ (Auth.requireClient user = Auth.Next
      <-> Auth.requireRole (Auth.Many ["client"; "admin"]) user = Auth.Next).
Proof.
  destruct user as [[uid r]|]; [|done].
  unfold Auth.requireAdmin, Auth.requireClient, Auth.requireRole,
    Auth.isAdmin, Auth.isClient. simpl.
  split.
  - destruct (String.eqb_spec r "admin") as [->|Hne]; simpl; [done|].
    case_bool_decide as H; simpl; [|done].
    apply list_elem_of_singleton in H. done.
  - destruct (String.eqb_spec r "client") as [->|Hc]; simpl; [done|].
    destruct (String.eqb_spec r "admin") as [->|Ha]; simpl; [done|].
    case_bool_decide as H; simpl; [|done].
    apply elem_of_cons in H as [H|H]; [done|].
    apply list_elem_of_singleton in H. done.
Qed.

(** X22: [requireOwnershipOrAdmin] lets a user through exactly when the
    user is an admin or the identifier of the route is the user's own;
    without a user every middleware answers 401. *)
Theorem ownership_or_admin params user :
  (Auth.requireOwnershipOrAdmin params user = Auth.Next
   <-> exists u, user = Some u
         /\ (Auth.isAdmin u = true
             \/ Auth.target params = Some u.(Auth._id)))
  /\ (user = None ->
      Auth.requireOwnershipOrAdmin params user = Auth.unauthenticated
      /\ Auth.requireAdmin user = Auth.unauthenticated
      /\ Auth.requireClient user = Auth.unauthenticated
      /\ forall roles,
           Auth.requireRole roles user = Auth.unauthenticated).
Proof.
  split; [|by intros ->].
  destruct user as [u|]; simpl.
  - split.
    + intros H. exists u. split; [done|].
      destruct (Auth.isAdmin u); [by left | right].
      by case_bool_decide.
    + intros (u' & [= <-] & [Ha | Ht]).
      * by rewrite Ha, andb_false_r.
      * by rewrite bool_decide_eq_true_2.
  - split; [done|]. by intros (? & ? & _).
Qed.

End Answers.

(** ** Closed instances of the further properties *)

Lemma circle_store_consistent : consistent circle_store.
Proof.
  split; [by repeat constructor|].
  apply NoDup_singleton.
Qed.

Lemma two_owners_consistent : consistent two_owners.
Proof.
  split; [by repeat constructor|].
  apply (bool_decide_unpack _). by vm_compute.
Qed.

Lemma pointInPolygon_outside_band_witness :
  Forall (fun v => Js.gt v.(lat) 20 = false) square4
  /\ pointInPolygon 20 5 square4 = inr false.
Proof.
  assert (H : Forall (fun v => Js.gt v.(lat) 20 = false) square4)
    by (repeat constructor).
  split; [exact H|].
  exact (pointInPolygon_outside_band 20 5 square4 false H).
Defined.

Lemma containsPoint_falsy_radius_witness :
  Js.truthy 0 = false
  /\ containsPoint Js.small_angle
       (sample "circle" [origin] (Some origin) (Some 0%float)) 0 0
     = inr false.
Proof.
  split; [reflexivity|].
  exact (containsPoint_falsy_radius Js.small_angle
           (sample "circle" [origin] (Some origin) (Some 0%float))
           0%float 0%float 0%float eq_refl eq_refl eq_refl).
Defined.

Lemma preSave_idempotent_witness :
  preSave (fun _ => true) (sample "polygon" square4 None None)
  = inr closed_square
  /\ preSave (fun _ => true) closed_square = inr closed_square.
Proof.
  assert (H : preSave (fun _ => true) (sample "polygon" square4 None None)
              = inr closed_square) by reflexivity.
  split; [exact H|].
  exact (preSave_idempotent (fun _ => true)
           (sample "polygon" square4 None None) closed_square H).
Defined.

Lemma preSave_ring_witness :
  exists ring,
    preSave (fun _ => true) (sample "polygon" square4 None None)
    = inr (set_geometry
             {| geoType := "Polygon"; geoCoordinates := Rings [ring] |}
             (sample "polygon" square4 None None))
    /\ (ring = formattedCoordinates (sample "polygon" square4 None None)
        \/ exists first,
             head (formattedCoordinates (sample "polygon" square4 None None))
             = Some first
             /\ ring
                = formattedCoordinates (sample "polygon" square4 None None)
                  ++ [first]).
Proof.
  apply (preSave_ring (fun _ => true) (sample "polygon" square4 None None)).
  - reflexivity.
  - left. split; [reflexivity | simpl; lia].
Defined.

Lemma writes_keep_consistent_witness :
  consistent circle_store
  /\ consistent (update circle_store "u1" "g1" zero_radius).2
  /\ consistent (remove circle_store "u1" "g1").2.
Proof.
  split; [exact circle_store_consistent|].
  exact (proj2 (writes_keep_consistent circle_store "u1" "g1" zero_radius
                  circle_store_consistent)).
Defined.


Lemma create_schema_failure_witness :
  create_rejects blank_name = None
  /\ create [] "u1" "g9" blank_name
     = ({| status := 500;
           payload := ServerError "Error creating geofence"
                        (Js.ValidationError "name") |}, []).
Proof.
  split; [reflexivity|].
  exact (proj1 (create_schema_failure [] "u1" "g9" blank_name "  " [origin]
                  eq_refl eq_refl eq_refl) eq_refl).
Defined.

Lemma writes_isolated_witness :
  (update two_owners "u1" "g2" rename).2 !! 1 = Some other_geofence
  /\ (remove two_owners "u1" "g2").2 !! 1 = Some other_geofence.
Proof.
  exact (writes_isolated two_owners "u1" "g2" rename 1 other_geofence
           (proj2 two_owners_consistent) eq_refl eq_refl).
Defined.

Lemma update_without_shape_witness :
  exists saved,
    (update two_owners "u1" "g1" rename).1.(payload)
    = Saved "Geofence updated successfully" saved
    /\ saved.(name) = "Gate"
    /\ saved.(geometry) = default_geometry
    /\ saved.(coordinates) = square4.
Proof.
  eexists. split; [reflexivity|]. split; [reflexivity|].
  destruct (update_without_shape two_owners "u1" "g1" rename
              (sample "polygon" square4 None None) _ _
              eq_refl eq_refl eq_refl eq_refl eq_refl eq_refl)
    as (Hg & Hc & _).
  split; [exact Hg | exact Hc].
Defined.

Lemma update_short_polygon_witness :
  (update two_owners "u1" "g1"
     {| Body.name := None; Body.coordinates := Some segment2;
        Body.type := None; Body.center := None; Body.radius := None;
        Body.isActive := None |}).1.(status) = 200.
Proof.
  assert (Hvalid : valid (sample "polygon" square4 None None))
    by reflexivity.
  assert (Hlen : length segment2 < 3) by (simpl; lia).
  assert (Hcs : Forall (fun c => valid_LatLng c = true) segment2)
    by (repeat constructor).
  pose proof (update_short_polygon two_owners "u1" "g1"
                (sample "polygon" square4 None None) segment2
                eq_refl Hvalid eq_refl Hlen Hcs) as H.
  cbv zeta in H. destruct H as [H _]. rewrite H. reflexivity.
Defined.

Lemma remove_soft_witness :
  remove circle_store "u1" "g1"
  = (200, Message true "Geofence deleted successfully",
     [set_isActive false
        (sample "circle" [origin] (Some origin) (Some 1000%float))])
  /\ find_active (remove circle_store "u1" "g1").2 "u1" = [].
Proof.
  pose proof (remove_soft circle_store "u1" "g1"
                (sample "circle" [origin] (Some origin) (Some 1000%float))
                circle_store_consistent eq_refl) as H.
  cbv zeta in H. destruct H as (H & _). rewrite H. split; reflexivity.
Defined.

Lemma remove_twice_witness :
  remove (remove circle_store "u1" "g1").2 "u1" "g1"
  = (200, Message true "Geofence deleted successfully",
     (remove circle_store "u1" "g1").2).
Proof.
  exact (remove_twice circle_store "u1" "g1"
           (sample "circle" [origin] (Some origin) (Some 1000%float))
           circle_store_consistent eq_refl).
Defined.

Lemma create_then_getById_witness :
  exists saved,
    getById (create two_owners "u1" "g9" untyped_segment).2 "u1" "g9"
    = (200, Data saved)
    /\ getById (create two_owners "u1" "g9" untyped_segment).2 "u2" "g9"
       = (404, Message false "Geofence not found").
Proof.
  eexists.
  assert (Hfresh : "g9" ∉ _id <$> two_owners).
  { apply (bool_decide_unpack _). by vm_compute. }
  destruct (create_then_getById two_owners "u1" "g9" untyped_segment _
              Hfresh eq_refl) as [H1 H2].
  split; [exact H1|]. apply H2. discriminate.
Defined.

Lemma update_then_getById_witness :
  exists saved,
    getById (update circle_store "u1" "g1" zero_radius).2 "u1" "g1"
    = (200, Data saved)
    /\ saved.(radius) = Some 0%float.
Proof.
  eexists. split.
  - exact (update_then_getById circle_store "u1" "g1" zero_radius _ _
             (proj2 circle_store_consistent) eq_refl).
  - reflexivity.
Defined.

Lemma checkPoint_reports_witness :
  Js.truthy 5 = true
  /\ exists matches,
       checkPoint Js.small_angle three_geofences "u1"
         {| Point.lat := Some 5%float; Point.lng := Some 5%float |}
       = ({| status := 200;
             payload := PointCheck (5, 5)%float (0 <? length matches)
                          matches (length matches) |},
          find_active three_geofences "u1")
       /\ forall g,
            g ∈ matches
            <-> g ∈ three_geofences /\ g.(createdBy) = "u1"
                /\ g.(isActive) = true
                /\ contains Js.small_angle 5 5 g.
Proof.
  split; [reflexivity|].
  exact (checkPoint_reports Js.small_angle three_geofences "u1" 5 5
           eq_refl eq_refl).
Defined.

(** ** Creating a shape and asking about it *)

Section Shapes.


Lemma even_odd_repeated plat plng v rest :
  even_odd plat plng (v :: v :: rest) = even_odd plat plng (v :: rest).
Proof.
  unfold even_odd, edges. rewrite last_cons_cons.
  destruct (last (v :: rest)) as [final|]; [|done].
  simpl. by rewrite (toggle_xorb plat plng _ (v, v)), crossing_degenerate,
    xorb_false_r.
Qed.

(** X23: a vertex given twice in a row counts once: the answer of
    [pointInPolygon] is that of the list without the repetition. *)
Theorem pointInPolygon_repeated_vertex plat plng front v back :
  pointInPolygon plat plng (front ++ v :: v :: back)
  = pointInPolygon plat plng (front ++ v :: back).
Proof.
  rewrite !pointInPolygon_even_odd. f_equal.
  rewrite (even_odd_rotate plat plng (v :: v :: back) front).
  rewrite (even_odd_rotate plat plng (v :: back) front).
  apply even_odd_repeated.
Qed.

(** X24: whenever a create request of type ['polygon'] is answered with a
    saved document, the request had at least three coordinates, and the
    document holds them under geometry type ['Polygon'] with one ring whose
    first and last positions are equal. *)
Theorem create_polygon store user fresh body message saved :
  body.(Body.type) = Some "polygon" ->
  (create store user fresh body).1.(payload) = Saved message saved ->
  exists cs ring first final,
    body.(Body.coordinates) = Some cs
    /\ 3 <= length cs
    /\ saved.(coordinates) = cs
    /\ saved.(geometry)
       = {| geoType := "Polygon"; geoCoordinates := Rings [ring] |}
    /\ head ring = Some first
    /\ last ring = Some final
    /\ positions_differ first final = false.
Proof.
  intros Hty. unfold create.
  destruct (create_rejects body) as [m|] eqn:Hpass; [done|].
  destruct (save _ _) as [e|d] eqn:Hsave; [done|].
  simpl. intros [= _ <-].
  unfold create_rejects in Hpass. rewrite Hty in Hpass, Hsave.
  destruct (Body.name body) as [n|]; [|done].
  destruct (Body.coordinates body) as [cs|]; [|done].
  destruct (_ || _); [done|].
  rewrite bool_decide_eq_true_2 in Hpass by done.
  destruct (Nat.ltb_spec (length cs) 3) as [|Hlen]; [done|]. clear Hpass.
  unfold save in Hsave. cbn [default or_default] in Hsave.
  change (String.eqb "polygon" "") with false in Hsave. cbn iota in Hsave.
  destruct (validate _) as [e|[]] eqn:Hvalid; [done|].
  apply validate_inr in Hvalid as (_ & Hcs & _).
  cbn [coordinates] in Hcs.
  simpl mbind in Hsave. unfold preSave in Hsave.
  cbn [type coordinates] in Hsave.
  change (String.eqb "type" "type") with true in Hsave.
  change (String.eqb "polygon" "circle") with false in Hsave.
  change (String.eqb "polygon" "polygon") with true in Hsave.
  cbn [orb andb] in Hsave. cbn iota in Hsave.
  destruct (Nat.leb_spec 3 (length cs)); [|lia].
  destruct cs as [|v rest]; [simpl in Hlen; lia|].
  assert (Hv : valid_LatLng v = true).
  { simpl in Hcs. by apply andb_true_iff in Hcs as [? _]. }
  destruct (closeRing_closed (toGeo v) (toGeo <$> rest)
              (valid_LatLng_same _ Hv))
    as (ring & final & Hring & Hhead & Hlast & Hsame & _).
  unfold ringOf in Hsave. rewrite fmap_cons, Hring in Hsave.
  rewrite orb_true_r in Hsave. simpl in Hsave. injection Hsave as <-.
  exists (v :: rest), ring, (toGeo v), final. by repeat split.
Qed.


End Shapes.

Lemma create_polygon_witness :
  exists cs ring first final,
    Some square4 = Some cs
    /\ 3 <= length cs
    /\ square4 = cs
    /\ {| geoType := "Polygon";
          geoCoordinates :=
            Rings [[(0, 0); (10, 0); (10, 10); (0, 10); (0, 0)]%float] |}
       = {| geoType := "Polygon"; geoCoordinates := Rings [ring] |}
    /\ head ring = Some first
    /\ last ring = Some final
    /\ positions_differ first final = false.
Proof.
  exact (create_polygon [] "u1" "g9"
           {| Body.name := Some "Gate"; Body.coordinates := Some square4;
              Body.type := Some "polygon"; Body.center := None;
              Body.radius := None; Body.isActive := None |}
           "Geofence created successfully"
           {| _id := "g9"; name := "Gate"; coordinates := square4;
              geometry :=
                {| geoType := "Polygon";
                   geoCoordinates :=
                     Rings [[(0, 0); (10, 0); (10, 10); (0, 10);
                             (0, 0)]%float] |};
              type := "polygon"; center := None; radius := None;
              isActive := true; createdBy := "u1" |}
           eq_refl eq_refl).
Defined.

